(** * smallsh: a shallow embedding of [main.c]

    The shell of [main.c] is embedded as pure functions over explicit
    state.

    - C strings are [string]s: the terminating NUL is the end of the
      Rocq string.  [int] and [pid_t] values are [Z].
    - The variables of [main] that survive an iteration ([str],
      [command_line], [child_exit_status], [background_mode_flag],
      [spawnPid]) and the global [foreground_mode_flag] make up the
      record [shell].  [command_line] is the list of the entries written
      so far; an entry never written is [Uninit].
    - What the kernel answers ([getpid], [fork], [waitpid], [open],
      [dup2], [execvp]) is handed to every iteration as an [os_reply].
      [fork] returning 0 is the child's side of the same code.
    - An iteration ends in one of four ways, the constructors of
      [outcome]: back to the top of the loop, [exit]/[_exit], a
      successful [execvp], or undefined behaviour (a NULL, unwritten or
      out-of-bounds pointer is used, or [sscanf] writes past a buffer).
      Each carries the calls and messages of the iteration in order.
    - SIGTSTP is delivered between iterations. *)

From Stdlib Require Import ZArith List String Ascii Bool Lia.
From Stdlib Require Import DecimalString DecimalZ.
Import ListNotations.

Local Open Scope string_scope.
Local Open Scope Z_scope.

(** ** Characters and C library helpers *)

Module CLib.

(** [isspace] in the C locale. *)
Definition isspace (c : ascii) : bool :=
  match nat_of_ascii c with
  | 32%nat | 9%nat | 10%nat | 11%nat | 12%nat | 13%nat => true
  | _ => false
  end.

Definition is_dollar (c : ascii) : bool := Ascii.eqb c "$".

(** [sprintf(buffer, "%d", n)]. *)
Definition sprintf_d (n : Z) : string :=
  NilZero.string_of_int (Z.to_int n).

(** [strstr(s, "$$") == s]: the string starts with the placeholder. *)
Definition starts_dd (s : string) : bool :=
  match s with
  | String c (String d _) => is_dollar c && is_dollar d
  | _ => false
  end.

(** [strstr(s, "$$") != NULL]. *)
Fixpoint contains_dd (s : string) : bool :=
  match s with
  | EmptyString => false
  | String _ rest => starts_dd s || contains_dd rest
  end.

(** [strtok(s, " ")] called until it returns NULL: the maximal runs of
    characters other than the space, in order.  [cur] is the token being
    read. *)
Fixpoint strtok_from (cur : string) (s : string) : list string :=
  match s with
  | EmptyString => if String.eqb cur "" then [] else [cur]
  | String c rest =>
      if Ascii.eqb c " "
      then (if String.eqb cur "" then strtok_from "" rest
            else cur :: strtok_from "" rest)
      else strtok_from (cur ++ String c "") rest
  end.

Definition strtok_all (s : string) : list string := strtok_from "" s.

Fixpoint skip_spaces (s : string) : string :=
  match s with
  | String c rest => if isspace c then skip_spaces rest else s
  | EmptyString => EmptyString
  end.

Fixpoint take_word (s : string) : string :=
  match s with
  | String c rest => if isspace c then EmptyString else String c (take_word rest)
  | EmptyString => EmptyString
  end.

(** [sscanf(tok, "%s", dst)] into [char dst[cap]]: leading white space
    is skipped and the following run of non-white characters is stored
    with its NUL; when the input ends before any such character nothing
    is stored (the call returns EOF) and [dst] keeps its old contents.
    [None]: the run and its NUL do not fit in [dst]. *)
Definition sscanf_s (cap : nat) (tok : string) (dst : string) : option string :=
  match take_word (skip_spaces tok) with
  | EmptyString => Some dst
  | w => if (String.length w <? cap)%nat then Some w else None
  end.

(** <sys/wait.h> of glibc on Linux. *)
Definition WTERMSIG (status : Z) : Z := Z.land status 127.
Definition WIFEXITED (status : Z) : bool := WTERMSIG status =? 0.
Definition WEXITSTATUS (status : Z) : Z := Z.shiftr (Z.land status 65280) 8.

(** The status word the kernel hands to [waitpid]: a child that called
    [exit(code)], and a child killed by signal [sig] (with or without a
    core dump). *)
Definition status_exited (code : Z) : Z := Z.shiftl (Z.land code 255) 8.
Definition status_signaled (sig : Z) (core : bool) : Z :=
  Z.lor sig (if core then 128 else 0).

End CLib.

Import CLib.

(** ** [$$] expansion *)

(** The first loop of [replace_double_dollarsigns]: it returns the final
    [i] and [counter], from which the size of the allocation is taken. *)
Fixpoint count_double_dollarsigns (str : string) : nat * nat :=
  match str with
  | EmptyString => (0%nat, 0%nat)
  | String c rest =>
      match rest with
      | String d rest' =>
          if is_dollar c && is_dollar d
          then let '(i, counter) := count_double_dollarsigns rest' in
               (S (S i), S counter)
          else let '(i, counter) := count_double_dollarsigns rest in
               (S i, counter)
      | EmptyString => (1%nat, 0%nat)
      end
  end.

(** [malloc(i + counter * (buffer_length - 2) + 1)]. *)
Definition replacement_size (str : string) (pid : Z) : Z :=
  let '(i, counter) := count_double_dollarsigns str in
  Z.of_nat i
  + Z.of_nat counter * (Z.of_nat (String.length (sprintf_d pid)) - 2) + 1.

(** The second loop: at every position, a leading [$$] is replaced by
    [buffer] and skipped, any other character is copied. *)
Fixpoint replace_double_dollarsigns (str : string) (pid : Z) : string :=
  match str with
  | EmptyString => EmptyString
  | String c rest =>
      match rest with
      | String d rest' =>
          if is_dollar c && is_dollar d
          then sprintf_d pid ++ replace_double_dollarsigns rest' pid
          else String c (replace_double_dollarsigns rest pid)
      | EmptyString => String c EmptyString
      end
  end.

(** The token as the pieces between its placeholders: [segs] are the
    pieces followed by a placeholder, [last] is the piece after the last
    one.  [join_with sep segs last] puts [sep] where the placeholders
    were. *)
Definition join_with (sep : string) (segs : list string) (last : string)
  : string :=
  fold_right (fun s acc => s ++ sep ++ acc) last segs.

(** A piece that is followed by a placeholder: the placeholder that
    follows it is the first one, scanning from the left. *)
Definition piece_ok (s : string) : Prop := contains_dd (s ++ "$") = false.

(** The pieces of a string, scanning from the left. *)
Fixpoint dollar_pieces (str : string) : list string * string :=
  match str with
  | EmptyString => ([], EmptyString)
  | String c rest =>
      match rest with
      | String d rest' =>
          if is_dollar c && is_dollar d
          then let '(segs, last) := dollar_pieces rest' in
               (EmptyString :: segs, last)
          else match dollar_pieces rest with
               | ([], last) => ([], String c last)
               | (s :: segs, last) => (String c s :: segs, last)
               end
      | EmptyString => ([], String c EmptyString)
      end
  end.

(** A word as [%s] reads it: no white space inside. *)
Fixpoint no_space (s : string) : bool :=
  match s with
  | EmptyString => true
  | String c rest => negb (isspace c) && no_space rest
  end.

(** ** The shell *)

Definition nl : string := String "010" EmptyString.
Definition NUL : string := String "000" EmptyString.

(** [write(STDOUT_FILENO, message, n)]: the first [n] bytes of the
    message and of the NUL that ends it. *)
Definition write_bytes (message : string) (n : nat) : string :=
  String.substring 0 n (message ++ NUL).

(** *** Signal Mediator *)

Definition entering_message : string :=
  nl ++ "Entering foreground-only mode (& is now ignored)" ++ nl.
Definition exiting_message : string :=
  nl ++ "Exiting foreground-only mode" ++ nl.

(** [handle_SIGTSTP]: the new value of [foreground_mode_flag] and the
    bytes written to standard output. *)
Definition handle_SIGTSTP (foreground_mode_flag : Z) : Z * string :=
  if foreground_mode_flag =? 0
  then (1, write_bytes entering_message 51)
  else (0, write_bytes exiting_message 31).

(** [handle_SIGINT]: the bytes written to standard output.  [main]
    never installs this handler: it sets SIGINT to [SIG_IGN]. *)
Definition handle_SIGINT (signo : Z) : string :=
  write_bytes ("Caught SIGINT" ++ nl) 15.

(** *** State *)

(** An entry of [char* command_line[2048]]: never written, NULL, or a
    string obtained from [strdup]. *)
Inductive slot : Type :=
| Uninit
| Null
| Ptr (s : string).

(** [a[i] = v]; entries between the end of what was written so far and
    [i] stay unwritten. *)
Fixpoint store (i : nat) (v : slot) (a : list slot) : list slot :=
  match i, a with
  | O, [] => [v]
  | O, _ :: a' => v :: a'
  | S i', [] => Uninit :: store i' v []
  | S i', x :: a' => x :: store i' v a'
  end.

Definition load (i : nat) (a : list slot) : slot := nth i a Uninit.

(** The variables of [main] that live across iterations of the loop,
    and the global [foreground_mode_flag]. *)
Record shell : Type := mkShell {
  str : string;
  command_line : list slot;
  child_exit_status : Z;
  background_mode_flag : Z;
  spawnPid : Z;
  foreground_mode_flag : Z
}.

(** The state on entry to the loop.  [str] and [command_line] are not
    initialised by [main]: [garbage] is whatever [str] holds. *)
Definition initial_shell (garbage : string) : shell :=
  {| str := garbage; command_line := [];
     child_exit_status := -5; background_mode_flag := 0;
     spawnPid := -5; foreground_mode_flag := 0 |}.

Definition set_parsed (s : shell) (st : string) (cl : list slot) : shell :=
  {| str := st; command_line := cl;
     child_exit_status := child_exit_status s;
     background_mode_flag := background_mode_flag s;
     spawnPid := spawnPid s;
     foreground_mode_flag := foreground_mode_flag s |}.

Definition set_background (s : shell) (cl : list slot) (bg : Z) : shell :=
  {| str := str s; command_line := cl;
     child_exit_status := child_exit_status s;
     background_mode_flag := bg;
     spawnPid := spawnPid s;
     foreground_mode_flag := foreground_mode_flag s |}.

Definition set_spawnPid (s : shell) (pid : Z) : shell :=
  {| str := str s; command_line := command_line s;
     child_exit_status := child_exit_status s;
     background_mode_flag := background_mode_flag s;
     spawnPid := pid;
     foreground_mode_flag := foreground_mode_flag s |}.

Definition set_status (s : shell) (st : Z) : shell :=
  {| str := str s; command_line := command_line s;
     child_exit_status := st;
     background_mode_flag := background_mode_flag s;
     spawnPid := spawnPid s;
     foreground_mode_flag := foreground_mode_flag s |}.

Definition set_foreground (s : shell) (fg : Z) : shell :=
  {| str := str s; command_line := command_line s;
     child_exit_status := child_exit_status s;
     background_mode_flag := background_mode_flag s;
     spawnPid := spawnPid s;
     foreground_mode_flag := fg |}.

(** Delivery of SIGTSTP to the shell. *)
Definition deliver_SIGTSTP (s : shell) : shell * string :=
  let '(fg, out) := handle_SIGTSTP (foreground_mode_flag s) in
  (set_foreground s fg, out).

(** *** What the kernel answers during one iteration *)

Record os_reply : Type := mkOs {
  os_getpid : Z;             (* getpid() *)
  os_fork : Z;               (* fork() *)
  os_wait : option Z;        (* status stored by waitpid(spawnPid, .., 0);
                                None when the call fails and stores nothing *)
  os_reap : list (Z * Z);    (* successive waitpid(-1, .., WNOHANG):
                                return value and status stored *)
  os_open_in : bool;         (* open(input_file, O_RDONLY) != -1 *)
  os_dup2_in : bool;         (* dup2(in, 0) != -1 *)
  os_open_out : bool;        (* open(output_file, ...) != -1 *)
  os_dup2_out : bool;        (* dup2(out, 1) != -1 *)
  os_execvp : bool           (* execvp did not return *)
}.

(** *** Observable actions and the ways an iteration ends *)

Inductive sighandler : Type := SIG_IGN | SIG_DFL.

Inductive event : Type :=
| Print (text : string)            (* printf to stdout *)
| Perror (text : string)           (* perror to stderr *)
| ChdirHome                        (* chdir(getenv("HOME")) *)
| Chdir (path : slot)              (* chdir(command_line[1]) *)
| Fork (ret : Z)                   (* fork() returned [ret] *)
| WaitFor (pid : Z)                (* waitpid(pid, &status, 0) *)
| WaitAny (ret : Z)                (* waitpid(-1, &status, WNOHANG) *)
| Sigaction_SIGINT (h : sighandler)
| OpenRead (path : string)
| OpenWrite (path : string)
| Dup2 (fd : Z).

(** The program image that replaces a child at [execvp]. *)
Record image : Type := mkImage {
  img_argv : list string;
  img_sigint : sighandler;
  img_stdin : option string;
  img_stdout : option string
}.

Inductive outcome : Type :=
| Continue (s : shell) (tr : list event)   (* back to the top of the loop *)
| Exit (code : Z) (tr : list event)        (* exit(code) or _exit(code) *)
| Exec (img : image) (tr : list event)     (* execvp succeeded *)
| Crash (tr : list event).                 (* NULL, unwritten or
                                              out-of-bounds pointer used *)

Definition trace (o : outcome) : list event :=
  match o with
  | Continue _ tr | Exit _ tr | Exec _ tr | Crash tr => tr
  end.

Definition before (pre : list event) (o : outcome) : outcome :=
  match o with
  | Continue s tr => Continue s (pre ++ tr)
  | Exit c tr => Exit c (pre ++ tr)
  | Exec i tr => Exec i (pre ++ tr)
  | Crash tr => Crash (pre ++ tr)
  end.

(** *** Tokenizer/Expander (the [strtok] loop of [main]) *)

Record tokenizer : Type := mkTok {
  t_str : string;              (* char str[512] *)
  t_input_file : string;       (* char input_file[100] *)
  t_output_file : string;      (* char output_file[100] *)
  t_index : nat;               (* int index *)
  t_command_line : list slot
}.

Definition tokenizer_start (s : shell) : tokenizer :=
  {| t_str := str s; t_input_file := ""; t_output_file := "";
     t_index := 0; t_command_line := command_line s |}.

Definition push_argument (t : tokenizer) (st arg : string) : tokenizer :=
  {| t_str := st;
     t_input_file := t_input_file t; t_output_file := t_output_file t;
     t_index := S (t_index t);
     t_command_line := store (t_index t) (Ptr arg) (t_command_line t) |}.

Definition set_input_file (t : tokenizer) (f : string) : tokenizer :=
  {| t_str := t_str t;
     t_input_file := f; t_output_file := t_output_file t;
     t_index := t_index t; t_command_line := t_command_line t |}.

Definition set_output_file (t : tokenizer) (f : string) : tokenizer :=
  {| t_str := t_str t;
     t_input_file := t_input_file t; t_output_file := f;
     t_index := t_index t; t_command_line := t_command_line t |}.

(** The body of [while (token != NULL)], over the tokens [strtok] will
    return.  [None]: [sscanf] was handed the NULL that [strtok] returns
    after the last token, or wrote past the end of its buffer. *)
Fixpoint parse_tokens (pid : Z) (tokens : list string) (t : tokenizer)
  : option tokenizer :=
  match tokens with
  | [] => Some t
  | token :: rest =>
      if String.eqb token "<" then
        match rest with
        | [] => None
        | path :: rest' =>
            match sscanf_s 100 path (t_input_file t) with
            | Some f => parse_tokens pid rest' (set_input_file t f)
            | None => None
            end
        end
      else if String.eqb token ">" then
        match rest with
        | [] => None
        | path :: rest' =>
            match sscanf_s 100 path (t_output_file t) with
            | Some f => parse_tokens pid rest' (set_output_file t f)
            | None => None
            end
        end
      else if contains_dd token then
        match sscanf_s 512 token (t_str t) with
        | Some st =>
            parse_tokens pid rest
              (push_argument t st (replace_double_dollarsigns st pid))
        | None => None
        end
      else
        match sscanf_s 512 token (t_str t) with
        | Some st => parse_tokens pid rest (push_argument t st st)
        | None => None
        end
  end.

(** *** Job Reaper (lines 262-275) *)

(** The text of [status] and of a background completion. *)
Definition status_text (status : Z) : string :=
  if WIFEXITED status
  then "exit value " ++ sprintf_d (WEXITSTATUS status) ++ nl
  else "terminated by signal " ++ sprintf_d status ++ nl.

(** [waitpid] stores a status only when it returns the pid of a child;
    when the replies run out it returns -1 (no child left). *)
Fixpoint reaper (replies : list (Z * Z)) (s : shell) : shell * list event :=
  match replies with
  | [] => (set_spawnPid s (-1), [WaitAny (-1)])
  | (ret, status) :: more =>
      if 0 <? ret
      then let '(s', tr) := reaper more (set_status (set_spawnPid s ret) status) in
           (s', WaitAny ret
                :: Print ("background pid " ++ sprintf_d ret ++ " is done: ")
                :: Print (status_text status) :: tr)
      else (set_spawnPid s ret, [WaitAny ret])
  end.

Definition then_reap (os : os_reply) (s : shell) (tr : list event) : outcome :=
  let '(s', tr') := reaper (os_reap os) s in Continue s' (tr ++ tr').

(** *** Process Launcher (lines 200-260) *)

(** [argv] as [execvp] reads it: the entries up to the first NULL. *)
Fixpoint argv_of (a : list slot) : list string :=
  match a with
  | Ptr s :: a' => s :: argv_of a'
  | _ => []
  end.

Definition redirection (file : string) : option string :=
  if String.eqb file "" then None else Some file.

(** [case 0]: the child.  The shell ignores SIGINT (lines 99-102) and
    the child inherits that until it calls [sigaction] itself. *)
Definition child (os : os_reply) (s : shell) (input_file output_file : string)
  : outcome :=
  let sig := if background_mode_flag s =? 0 then [Sigaction_SIGINT SIG_DFL] else [] in
  let sigint := if background_mode_flag s =? 0 then SIG_DFL else SIG_IGN in
  let after_output (tr : list event) : outcome :=
    if os_execvp os
    then Exec {| img_argv := argv_of (command_line s);
                 img_sigint := sigint;
                 img_stdin := redirection input_file;
                 img_stdout := redirection output_file |} tr
    else match load 0 (command_line s) with
         | Ptr cmd => Exit 1 (tr ++ [Print (cmd ++ " is an invalid command" ++ nl)])
         | _ => Crash tr
         end in
  let after_input (tr : list event) : outcome :=
    if String.eqb output_file "" then after_output tr
    else if negb (os_open_out os)
    then Exit 1 (tr ++ [OpenWrite output_file;
                        Print ("cannot open " ++ output_file ++ nl)])
    else if negb (os_dup2_out os)
    then Exit 1 (tr ++ [OpenWrite output_file; Dup2 1; Perror "dup2"])
    else after_output (tr ++ [OpenWrite output_file; Dup2 1])%list in
  if String.eqb input_file "" then after_input sig
  else if negb (os_open_in os)
  then Exit 1 (sig ++ [OpenRead input_file;
                       Print (input_file ++ ": no such file or directory" ++ nl)])
  else if negb (os_dup2_in os)
  then Exit 1 (sig ++ [OpenRead input_file; Dup2 0; Perror "dup2"])
  else after_input (sig ++ [OpenRead input_file; Dup2 0])%list.

(** The condition of line 252. *)
Definition waits_in_foreground (s : shell) : bool :=
  (foreground_mode_flag s =? 1) || (background_mode_flag s =? 0).

(** [default]: the parent. *)
Definition parent (os : os_reply) (s : shell) : outcome :=
  if waits_in_foreground s
  then let s' := match os_wait os with
                 | Some status => set_status s status
                 | None => s
                 end in
       then_reap os s' [WaitFor (spawnPid s)]
  else if background_mode_flag s =? 1
  then then_reap os s
         [Print ("background pid is " ++ sprintf_d (spawnPid s) ++ nl)]
  else then_reap os s [].

Definition launch (os : os_reply) (s : shell) (input_file output_file : string)
  : outcome :=
  let s' := set_spawnPid s (os_fork os) in
  before [Fork (os_fork os)]
    (if os_fork os =? -1
     then Exit 1 [Perror ("fork() failed!" ++ nl)]
     else if os_fork os =? 0
     then child os s' input_file output_file
     else parent os s').

(** *** Command Dispatcher (lines 172-261) *)

Definition dispatch (os : os_reply) (s : shell) (index : nat)
  (input_file output_file : string) : outcome :=
  match load 0 (command_line s) with
  | Ptr cmd =>
      if String.eqb cmd "exit" then Exit 0 []
      else if String.eqb cmd "cd" then
        then_reap os s
          [if Z.of_nat index - 1 =? 1 then ChdirHome
           else Chdir (load 1 (command_line s))]
      else if String.eqb cmd "status" then
        then_reap os s [Print (status_text (child_exit_status s))]
      else launch os s input_file output_file
  | _ => Crash []
  end.

Definition first_char_is (c : ascii) (s : string) : bool :=
  match s with
  | String d _ => Ascii.eqb d c
  | EmptyString => false
  end.

(** Lines 155-276: what follows the tokenizer. *)
Definition execute (os : os_reply) (s : shell) (user_input : string)
  (t : tokenizer) : outcome :=
  let cl := if first_char_is "010" user_input
            then store 0 Null (t_command_line t)
            else t_command_line t in
  let s1 := set_parsed s (t_str t) cl in
  match load 0 cl with
  | Uninit => Crash []
  | Null => Continue s1 []
  | Ptr first =>
      if first_char_is "#" first then Continue s1 []
      else
        match t_index t with
        | O => Crash []                      (* command_line[-1] *)
        | S k =>
            match load k cl with
            | Ptr last =>
                if String.eqb last "&"
                then dispatch os (set_background s1 (store k Null cl) 1) (S k)
                       (t_input_file t) (t_output_file t)
                else dispatch os (set_background s1 (store (S k) Null cl) 0)
                       (S (S k)) (t_input_file t) (t_output_file t)
            | _ => Crash []
            end
        end
  end.

(** One iteration of [while (1)]: [line] is what [fgets] stored, [None]
    when it stored nothing and [user_input] keeps the newline put there
    by [strcpy]. *)
Definition prompt : event := Print ": ".

Definition iteration (os : os_reply) (line : option string) (s : shell)
  : outcome :=
  let user_input := match line with Some l => l | None => nl end in
  before [prompt]
    (match parse_tokens (os_getpid os) (strtok_all user_input)
             (tokenizer_start s) with
     | None => Crash []
     | Some t => execute os s user_input t
     end).

(** [fgets(user_input, size, stdin)]: at most [size - 1] characters, up
    to and including the first newline; the rest stays in the stream. *)
Fixpoint fgets_from (n : nat) (stdin : string) : string * string :=
  match n, stdin with
  | S n', String c rest =>
      if Ascii.eqb c "010" then (String c EmptyString, rest)
      else let '(l, rest') := fgets_from n' rest in (String c l, rest')
  | _, _ => (EmptyString, stdin)
  end.

Definition fgets (size : nat) (stdin : string) : option string * string :=
  match stdin with
  | EmptyString => (None, stdin)
  | _ => let '(l, rest) := fgets_from (size - 1) stdin in (Some l, rest)
  end.

(** The loop, for as many iterations as there are kernel replies. *)
Fixpoint run (replies : list os_reply) (stdin : string) (s : shell)
  : outcome :=
  match replies with
  | [] => Continue s []
  | os :: more =>
      let '(line, rest) := fgets 2048 stdin in
      match iteration os line s with
      | Continue s' tr => before tr (run more rest s')
      | o => o
      end
  end.

(** ** Vocabulary of the statements *)

(** SIGTSTP delivered [n] times in a row. *)
Definition deliver_SIGTSTP_times (n : nat) (s : shell) : shell :=
  Nat.iter n (fun s' => fst (deliver_SIGTSTP s')) s.

(** The tokenizer read [line] from state [s] and ended in [t]. *)
Definition tokenized (os : os_reply) (line : string) (s : shell)
  (t : tokenizer) : Prop :=
  parse_tokens (os_getpid os) (strtok_all line) (tokenizer_start s) = Some t.

(** The tokenizer left [args] in [command_line[0 .. index - 1]]; [stale]
    is what the array holds after them. *)
Definition arguments (t : tokenizer) (args : list string) (stale : list slot)
  : Prop :=
  t_index t = List.length args
  /\ t_command_line t = (map Ptr args ++ stale)%list.

(** The state handed to the dispatcher once [command_line] ends in NULL
    and [background_mode_flag] is set. *)
Definition dispatched (s : shell) (t : tokenizer) (cl : list slot) (bg : Z)
  : shell :=
  set_background (set_parsed s (t_str t) (t_command_line t)) cl bg.

Definition is_builtin (cmd : string) : bool :=
  String.eqb cmd "exit" || String.eqb cmd "cd" || String.eqb cmd "status".

(** ShellState of the specification: [foregroundOnly] and [lastStatus]. *)
Definition ShellState (s : shell) : Z * Z :=
  (foreground_mode_flag s, child_exit_status s).

(** How an iteration ends, as seen from outside the process. *)
Inductive ending : Type :=
| Continues (state : Z * Z)
| Exits (code : Z)
| Execs (img : image)
| Crashes.

Definition ending_of (o : outcome) : ending :=
  match o with
  | Continue s _ => Continues (ShellState s)
  | Exit code _ => Exits code
  | Exec img _ => Execs img
  | Crash _ => Crashes
  end.

Definition effects (o : outcome) : ending * list event :=
  (ending_of o, trace o).

Definition is_fork (e : event) : bool :=
  match e with Fork _ => true | _ => false end.

Definition is_wait_for (e : event) : bool :=
  match e with WaitFor _ => true | _ => false end.

Definition is_wait_any (e : event) : bool :=
  match e with WaitAny _ => true | _ => false end.

(** The calls and messages of the Job Reaper for the given replies. *)
Fixpoint reap_trace (replies : list (Z * Z)) : list event :=
  match replies with
  | [] => [WaitAny (-1)]
  | (ret, status) :: more =>
      if 0 <? ret
      then WaitAny ret
           :: Print ("background pid " ++ sprintf_d ret ++ " is done: ")
           :: Print (status_text status) :: reap_trace more
      else [WaitAny ret]
  end.

(** [child_exit_status] once the Job Reaper is done. *)
Fixpoint reap_status (replies : list (Z * Z)) (status : Z) : Z :=
  match replies with
  | [] => status
  | (ret, status') :: more =>
      if 0 <? ret then reap_status more status' else status
  end.

(** The tokenizer's result for a concrete line, for the witnesses. *)
Definition tokenizer_of (os : os_reply) (line : string) (s : shell)
  : tokenizer :=
  match parse_tokens (os_getpid os) (strtok_all line) (tokenizer_start s) with
  | Some t => t
  | None => tokenizer_start s
  end.

(** No space inside: what a token of [strtok(.., " ")] looks like. *)
Fixpoint no_blank (s : string) : bool :=
  match s with
  | EmptyString => true
  | String c rest => negb (Ascii.eqb c " ") && no_blank rest
  end.

Fixpoint no_dollar (s : string) : bool :=
  match s with
  | EmptyString => true
  | String c rest => negb (is_dollar c) && no_dollar rest
  end.

(** What the Job Reaper does for one finished child. *)
Definition completion_report (reply : Z * Z) : list event :=
  [WaitAny (fst reply);
   Print ("background pid " ++ sprintf_d (fst reply) ++ " is done: ");
   Print (status_text (snd reply))].

(** [user_input] after [fgets]. *)
Definition user_input_of (line : option string) : string :=
  match line with Some l => l | None => nl end.

(** How an iteration may end, for a shell whose flag was [fg]: the flag
    is kept; the process leaves with 0, or with 1 when [fork] failed or
    in the child; only the child becomes another program. *)
Definition ends_well (os : os_reply) (fg : Z) (o : outcome) : Prop :=
  match o with
  | Continue s' _ => foreground_mode_flag s' = fg
  | Exit code _ =>
      code = 0 \/ (code = 1 /\ (os_fork os = -1 \/ os_fork os = 0))
  | Exec _ _ => os_fork os = 0
  | Crash _ => True
  end.

(** A line as a user writes it: words, and redirections with their
    path.  [fin] is what follows the token inside the line: nothing, or
    the newline when the token is the last one. *)
Inductive item : Type :=
| Word (w fin : string)
| InputFrom (path fin : string)
| OutputTo (path fin : string).

Definition item_tokens (i : item) : list string :=
  match i with
  | Word w fin => [w ++ fin]
  | InputFrom path fin => ["<"; path ++ fin]
  | OutputTo path fin => [">"; path ++ fin]
  end.

Definition ends_token (fin : string) : Prop := fin = "" \/ fin = nl.

(** Words fit in [str], paths in [input_file] and [output_file], none
    holds white space, and a word is not itself an operator. *)
Definition item_ok (i : item) : Prop :=
  match i with
  | Word w fin =>
      no_space w = true /\ w <> "" /\ (String.length w < 512)%nat
      /\ ends_token fin /\ w ++ fin <> "<" /\ w ++ fin <> ">"
  | InputFrom path fin | OutputTo path fin =>
      no_space path = true /\ path <> "" /\ (String.length path < 100)%nat
      /\ ends_token fin
  end.

Definition item_arguments (pid : Z) (i : item) : list string :=
  match i with
  | Word w _ => [replace_double_dollarsigns w pid]
  | InputFrom _ _ | OutputTo _ _ => []
  end.

Fixpoint input_path (items : list item) (current : string) : string :=
  match items with
  | [] => current
  | InputFrom path _ :: rest => input_path rest path
  | _ :: rest => input_path rest current
  end.

Fixpoint output_path (items : list item) (current : string) : string :=
  match items with
  | [] => current
  | OutputTo path _ :: rest => output_path rest path
  | _ :: rest => output_path rest current
  end.

(** Kernel replies used in the examples: the shell is process 1234, a
    fork gives child 500, every call succeeds, a waited child exits
    with 0 and no background child has finished. *)
Definition quiet_os : os_reply :=
  {| os_getpid := 1234; os_fork := 500; os_wait := Some 0; os_reap := [];
     os_open_in := true; os_dup2_in := true;
     os_open_out := true; os_dup2_out := true; os_execvp := true |}.

Definition with_fork (os : os_reply) (ret : Z) : os_reply :=
  {| os_getpid := os_getpid os; os_fork := ret; os_wait := os_wait os;
     os_reap := os_reap os;
     os_open_in := os_open_in os; os_dup2_in := os_dup2_in os;
     os_open_out := os_open_out os; os_dup2_out := os_dup2_out os;
     os_execvp := os_execvp os |}.

Definition with_wait (os : os_reply) (status : option Z) : os_reply :=
  {| os_getpid := os_getpid os; os_fork := os_fork os; os_wait := status;
     os_reap := os_reap os;
     os_open_in := os_open_in os; os_dup2_in := os_dup2_in os;
     os_open_out := os_open_out os; os_dup2_out := os_dup2_out os;
     os_execvp := os_execvp os |}.

Definition with_reap (os : os_reply) (replies : list (Z * Z)) : os_reply :=
  {| os_getpid := os_getpid os; os_fork := os_fork os; os_wait := os_wait os;
     os_reap := replies;
     os_open_in := os_open_in os; os_dup2_in := os_dup2_in os;
     os_open_out := os_open_out os; os_dup2_out := os_dup2_out os;
     os_execvp := os_execvp os |}.

(** ** Facts about strings *)

Lemma append_assoc (a b c : string) : (a ++ b) ++ c = a ++ (b ++ c).
Proof. induction a as [|x a IH]; simpl; [reflexivity | now rewrite IH]. Qed.

Lemma append_empty_r (a : string) : a ++ "" = a.
Proof. induction a as [|x a IH]; simpl; [reflexivity | now rewrite IH]. Qed.

Lemma length_append (a b : string) :
  String.length (a ++ b) = (String.length a + String.length b)%nat.
Proof. induction a as [|x a IH]; simpl; [reflexivity | now rewrite IH]. Qed.

(** Induction two characters at a time, the way the loops of
    [replace_double_dollarsigns] advance. *)
Lemma string_ind2 (P : string -> Prop) :
  P "" ->
  (forall c, P (String c "")) ->
  (forall c d r, P r -> P (String d r) -> P (String c (String d r))) ->
  forall s, P s.
Proof.
  intros H0 H1 H2 s.
  assert (H : P s /\ forall c, P (String c s)).
  { induction s as [|d r [IHr IHc]].
    - split; [exact H0 | exact H1].
    - split; [apply IHc | intros c; apply H2; [exact IHr | apply IHc]]. }
  exact (proj1 H).
Qed.

(** ** [$$] expansion: proofs *)

Lemma replace_no_placeholder (s : string) (pid : Z) :
  contains_dd s = false -> replace_double_dollarsigns s pid = s.
Proof.
  induction s as [|c rest IH]; [reflexivity|].
  intros H. cbn [contains_dd] in H. apply orb_false_elim in H as [Hs Hc].
  cbn [replace_double_dollarsigns]. destruct rest as [|d rest']; [reflexivity|].
  cbn [starts_dd] in Hs. rewrite Hs. f_equal. now apply IH.
Qed.

Lemma replace_piece (s t : string) (pid : Z) :
  piece_ok s ->
  replace_double_dollarsigns (s ++ "$$" ++ t) pid
  = s ++ sprintf_d pid ++ replace_double_dollarsigns t pid.
Proof.
  unfold piece_ok. induction s as [|c s' IH]; intros H.
  - reflexivity.
  - cbn [append contains_dd] in H. apply orb_false_elim in H as [Hs Hc].
    specialize (IH Hc).
    change (String c s' ++ "$$" ++ t) with (String c (s' ++ "$$" ++ t)).
    cbn [replace_double_dollarsigns].
    destruct s' as [|d s''].
    + cbn [append] in *. cbn [starts_dd] in Hs. rewrite Hs. now rewrite IH.
    + cbn [append] in *. cbn [starts_dd] in Hs. rewrite Hs. now rewrite IH.
Qed.

Lemma replace_join (segs : list string) (last : string) (pid : Z) :
  Forall piece_ok segs -> contains_dd last = false ->
  replace_double_dollarsigns (join_with "$$" segs last) pid
  = join_with (sprintf_d pid) segs last.
Proof.
  intros Hsegs Hlast. induction Hsegs as [|s segs Hs _ IH]; cbn [join_with fold_right].
  - now apply replace_no_placeholder.
  - fold (join_with "$$" segs last). fold (join_with (sprintf_d pid) segs last).
    rewrite replace_piece by exact Hs. now rewrite IH.
Qed.

Lemma dollar_pieces_two (c d : ascii) (r : string) :
  dollar_pieces (String c (String d r))
  = if is_dollar c && is_dollar d
    then let '(segs, last) := dollar_pieces r in (EmptyString :: segs, last)
    else match dollar_pieces (String d r) with
         | ([], last) => ([], String c last)
         | (s :: segs, last) => (String c s :: segs, last)
         end.
Proof. reflexivity. Qed.

Lemma count_two (c d : ascii) (r : string) :
  count_double_dollarsigns (String c (String d r))
  = if is_dollar c && is_dollar d
    then let '(i, counter) := count_double_dollarsigns r in (S (S i), S counter)
    else let '(i, counter) := count_double_dollarsigns (String d r) in
         (S i, counter).
Proof. reflexivity. Qed.

Lemma replace_two (c d : ascii) (r : string) (pid : Z) :
  replace_double_dollarsigns (String c (String d r)) pid
  = if is_dollar c && is_dollar d
    then sprintf_d pid ++ replace_double_dollarsigns r pid
    else String c (replace_double_dollarsigns (String d r) pid).
Proof. reflexivity. Qed.

Lemma dollar_pieces_spec (str : string) :
  join_with "$$" (fst (dollar_pieces str)) (snd (dollar_pieces str)) = str
  /\ Forall piece_ok (fst (dollar_pieces str))
  /\ contains_dd (snd (dollar_pieces str)) = false.
Proof.
  induction str as [| c | c d r IHr IHd] using string_ind2.
  - repeat split; constructor.
  - repeat split; constructor.
  - rewrite dollar_pieces_two. destruct (is_dollar c && is_dollar d) eqn:E.
    + destruct (dollar_pieces r) as [segs last]. cbn [fst snd] in *.
      destruct IHr as (Hj & Hf & Hl). apply andb_prop in E as [Ec Ed].
      apply Ascii.eqb_eq in Ec, Ed. subst c d.
      repeat split; [| constructor; [reflexivity | exact Hf] | exact Hl].
      cbn [join_with fold_right]. fold (join_with "$$" segs last).
      now rewrite Hj.
    + destruct (dollar_pieces (String d r)) as [[|s segs] last];
        cbn [fst snd] in *; destruct IHd as (Hj & Hf & Hl).
      * cbn [join_with fold_right] in *. subst last.
        repeat split; [constructor|].
        cbn [contains_dd starts_dd]. rewrite E. exact Hl.
      * cbn [join_with fold_right] in *. fold (join_with "$$" segs last) in *.
        repeat split.
        -- rewrite <- Hj. reflexivity.
        -- inversion Hf as [|? ? Hs Hsegs]; subst. constructor; [|exact Hsegs].
           unfold piece_ok in *. cbn [append contains_dd]. rewrite Hs, orb_false_r.
           destruct s as [|e s']; cbn [append] in *.
           ++ injection Hj as Hd _. subst d. cbn [starts_dd]. exact E.
           ++ injection Hj as He _. subst e. cbn [starts_dd]. exact E.
        -- exact Hl.
Qed.

Lemma count_is_length (str : string) :
  fst (count_double_dollarsigns str) = String.length str.
Proof.
  induction str as [| c | c d r IHr IHd] using string_ind2; try reflexivity.
  rewrite count_two. destruct (is_dollar c && is_dollar d).
  - destruct (count_double_dollarsigns r). cbn [fst] in *. cbn. now rewrite IHr.
  - destruct (count_double_dollarsigns (String d r)). cbn [fst] in *.
    cbn [String.length] in *. now rewrite IHd.
Qed.

(** X1.  The size handed to [malloc] on line 65 is exactly the length
    of the expanded string plus one for its NUL, for every token and
    every process identifier (also one of a single digit, where the
    string gets shorter): the second loop never writes outside the
    allocation and wastes none of it. *)
Lemma replacement_size_exact (str : string) (pid : Z) :
  replacement_size str pid
  = Z.of_nat (String.length (replace_double_dollarsigns str pid)) + 1.
Proof.
  unfold replacement_size.
  induction str as [| c | c d r IHr IHd] using string_ind2; try reflexivity.
  rewrite count_two, replace_two.
  destruct (is_dollar c && is_dollar d).
  - destruct (count_double_dollarsigns r) as [i counter].
    rewrite length_append. lia.
  - destruct (count_double_dollarsigns (String d r)) as [i counter].
    change (String.length (String c ?x)) with (S (String.length x)). lia.
Qed.

(** The text written by [%d] reads back as the number. *)
Lemma sprintf_d_reads_back (n : Z) :
  option_map Z.of_int (NilZero.int_of_string (sprintf_d n)) = Some n.
Proof.
  unfold sprintf_d. rewrite NilZero.isi.
  - cbn. now rewrite DecimalZ.of_to.
  - destruct n; try discriminate.
    cbn. intros [= H]. now apply (DecimalPos.Unsigned.to_uint_nonnil p).
  - destruct n; try discriminate.
    cbn. intros [= H]. now apply (DecimalPos.Unsigned.to_uint_nonnil p).
Qed.

Lemma take_word_no_space (w final : string) :
  no_space w = true -> final = "" \/ final = nl ->
  take_word (w ++ final) = w.
Proof.
  intros Hw Hf. induction w as [|c w IH]; cbn [append take_word].
  - now destruct Hf as [-> | ->].
  - cbn [no_space] in Hw. apply andb_prop in Hw as [Hc Hw].
    apply negb_true_iff in Hc. rewrite Hc. f_equal. now apply IH.
Qed.

Lemma skip_spaces_no_space (w final : string) :
  no_space w = true -> w <> "" -> skip_spaces (w ++ final) = w ++ final.
Proof.
  intros Hw Hne. destruct w as [|c w]; [congruence|].
  cbn [no_space] in Hw. apply andb_prop in Hw as [Hc _].
  apply negb_true_iff in Hc. cbn [append skip_spaces]. now rewrite Hc.
Qed.

Lemma sscanf_s_word (cap : nat) (w final dst : string) :
  no_space w = true -> w <> "" -> final = "" \/ final = nl ->
  (String.length w < cap)%nat ->
  sscanf_s cap (w ++ final) dst = Some w.
Proof.
  intros Hw Hne Hf Hlen. unfold sscanf_s.
  rewrite skip_spaces_no_space, take_word_no_space by assumption.
  destruct w; [congruence|].
  apply Nat.ltb_lt in Hlen. now rewrite Hlen.
Qed.

Lemma contains_dd_append (w x : string) :
  contains_dd w = true -> contains_dd (w ++ x) = true.
Proof.
  induction w as [|c w IH]; [discriminate|].
  cbn [append contains_dd]. intros H. apply orb_prop in H as [H | H].
  - destruct w as [|d w]; [discriminate|]. cbn [append starts_dd] in *.
    now rewrite H.
  - rewrite (IH H). apply orb_true_r.
Qed.

Lemma placeholder_token_is_no_operator (w x : string) (c : ascii) :
  contains_dd w = true -> String.eqb (w ++ x) (String c "") = false.
Proof.
  destruct w as [|a [|b w]]; try discriminate. intros _.
  cbn [append String.eqb]. now destruct (Ascii.eqb a c).
Qed.

(** Lines 141-146: a token with a placeholder is stored in
    [command_line] expanded with the shell's own [getpid()]. *)
Lemma parse_tokens_expands (pid : Z) (w final : string) (rest : list string)
  (t : tokenizer) :
  no_space w = true -> contains_dd w = true ->
  (String.length w < 512)%nat -> final = "" \/ final = nl ->
  parse_tokens pid ((w ++ final) :: rest) t
  = parse_tokens pid rest
      (push_argument t w (replace_double_dollarsigns w pid)).
Proof.
  intros Hw Hdd Hlen Hf. cbn [parse_tokens].
  rewrite !placeholder_token_is_no_operator by exact Hdd.
  rewrite contains_dd_append by exact Hdd.
  rewrite sscanf_s_word; try assumption; [reflexivity|].
  now destruct w.
Qed.

Example replace_embedded :
  replace_double_dollarsigns "id$$log" 1234 = "id1234log".
Proof. reflexivity. Qed.

Example replace_three_dollars :
  replace_double_dollarsigns "$$$" 77 = "77$".
Proof. reflexivity. Qed.

Example replace_twice :
  replace_double_dollarsigns "a$$b$$" 5 = "a5b5".
Proof. reflexivity. Qed.

(** X17.  [replace_double_dollarsigns] replaces every placeholder of
    its argument, scanning from the left, by the decimal text of the
    process identifier and keeps every other character in place: a
    string read as pieces separated by placeholders becomes the same
    pieces separated by the identifier; every string can be read that
    way; the text of the identifier reads back as the identifier.  In
    the tokenizer, a token that is not taken as an operator or as the
    path after one, holds no white space but a final newline and is
    shorter than 512 characters is stored in [command_line] expanded
    with the shell's own [getpid()]. *)
Theorem replace_double_dollarsigns_expands :
  (forall (segs : list string) (last : string) (pid : Z),
      Forall piece_ok segs -> contains_dd last = false ->
      replace_double_dollarsigns (join_with "$$" segs last) pid
      = join_with (sprintf_d pid) segs last)
  /\ (forall token : string,
        exists segs last,
          token = join_with "$$" segs last
          /\ Forall piece_ok segs /\ contains_dd last = false)
  /\ (forall pid : Z,
        option_map Z.of_int (NilZero.int_of_string (sprintf_d pid)) = Some pid)
  /\ (forall (os : os_reply) (w final : string) (rest : list string)
             (t : tokenizer),
        no_space w = true -> contains_dd w = true ->
        (String.length w < 512)%nat -> final = "" \/ final = nl ->
        parse_tokens (os_getpid os) ((w ++ final) :: rest) t
        = parse_tokens (os_getpid os) rest
            (push_argument t w
               (replace_double_dollarsigns w (os_getpid os)))).
Proof.
  split; [exact replace_join | split; [| split]].
  - intros token. destruct (dollar_pieces_spec token) as (Hj & Hf & Hl).
    exists (fst (dollar_pieces token)), (snd (dollar_pieces token)).
    now rewrite Hj.
  - exact sprintf_d_reads_back.
  - intros os w final rest t. apply parse_tokens_expands.
Qed.

Lemma replace_double_dollarsigns_expands_witness :
  Forall piece_ok ["id"; "-"] /\ contains_dd "log" = false
  /\ replace_double_dollarsigns "id$$-$$log" 1234 = "id1234-1234log"
  /\ parse_tokens 1234 ["echo"; "id$$log" ++ nl] (tokenizer_start (initial_shell ""))
     = Some {| t_str := "id$$log"; t_input_file := ""; t_output_file := "";
               t_index := 2;
               t_command_line := [Ptr "echo"; Ptr "id1234log"] |}.
Proof.
  assert (H1 : Forall piece_ok ["id"; "-"]) by (repeat constructor).
  assert (H2 : contains_dd "log" = false) by reflexivity.
  split; [exact H1 | split; [exact H2 | split]].
  - exact (proj1 replace_double_dollarsigns_expands ["id"; "-"] "log" 1234 H1 H2).
  - assert (H3 : (String.length "id$$log" < 512)%nat) by (cbn; lia).
    change (parse_tokens 1234 ["echo"; "id$$log" ++ nl]
              (tokenizer_start (initial_shell "")))
      with (parse_tokens (os_getpid quiet_os) [("id$$log" ++ nl)%string]
              (push_argument (tokenizer_start (initial_shell "")) "echo" "echo")).
    rewrite (proj2 (proj2 (proj2 replace_double_dollarsigns_expands))
               quiet_os "id$$log" nl []
               (push_argument (tokenizer_start (initial_shell "")) "echo" "echo")
               eq_refl eq_refl H3 (or_intror eq_refl)).
    reflexivity.
Defined.

(** ** Signal Mediator: proofs *)

Lemma set_foreground_same (s : shell) :
  set_foreground s (foreground_mode_flag s) = s.
Proof. now destruct s. Qed.

Lemma deliver_SIGTSTP_flag (s : shell) :
  foreground_mode_flag (fst (deliver_SIGTSTP s))
  = fst (handle_SIGTSTP (foreground_mode_flag s)).
Proof.
  unfold deliver_SIGTSTP.
  now destruct (handle_SIGTSTP (foreground_mode_flag s)).
Qed.

Lemma handle_SIGTSTP_two_states (flag : Z) :
  fst (handle_SIGTSTP flag) = 0 \/ fst (handle_SIGTSTP flag) = 1.
Proof. unfold handle_SIGTSTP. destruct (flag =? 0); cbn; auto. Qed.

Lemma deliver_SIGTSTP_twice (s : shell) :
  foreground_mode_flag s = 0 \/ foreground_mode_flag s = 1 ->
  fst (deliver_SIGTSTP (fst (deliver_SIGTSTP s))) = s.
Proof.
  destruct s as [st cl ces bg sp fg]. cbn [foreground_mode_flag].
  intros [-> | ->]; reflexivity.
Qed.

Lemma deliver_SIGTSTP_times_S (s : shell) (m : nat) :
  deliver_SIGTSTP_times (S m) s
  = fst (deliver_SIGTSTP (deliver_SIGTSTP_times m s)).
Proof. reflexivity. Qed.

Lemma deliver_SIGTSTP_even (s : shell) (n : nat) :
  foreground_mode_flag s = 0 \/ foreground_mode_flag s = 1 ->
  deliver_SIGTSTP_times (2 * n) s = s.
Proof.
  intros H. induction n as [|n IH]; [reflexivity|].
  replace (2 * S n)%nat with (S (S (2 * n))) by lia.
  rewrite !deliver_SIGTSTP_times_S, IH.
  now apply deliver_SIGTSTP_twice.
Qed.

Lemma deliver_SIGTSTP_from_start (g : string) (n : nat) :
  foreground_mode_flag (deliver_SIGTSTP_times n (initial_shell g))
  = if Nat.even n then 0 else 1.
Proof.
  assert (H : forall m,
             foreground_mode_flag (deliver_SIGTSTP_times m (initial_shell g))
             = (if Nat.even m then 0 else 1)
             /\ foreground_mode_flag
                  (deliver_SIGTSTP_times (S m) (initial_shell g))
                = (if Nat.even m then 1 else 0)).
  { induction m as [|m [IH1 IH2]].
    - split; reflexivity.
    - split.
      + rewrite IH2. rewrite Nat.even_succ, <- Nat.negb_even.
        now destruct (Nat.even m).
      + rewrite deliver_SIGTSTP_times_S, deliver_SIGTSTP_flag, IH2.
        rewrite Nat.even_succ, <- Nat.negb_even.
        now destruct (Nat.even m). }
  apply H.
Qed.

(** C8.  The SIGTSTP handler moves [foreground_mode_flag] between 0 and
    1 only, starting from 0; delivered an even number of times it gives
    the shell back exactly as it was, so every command line is then
    handled as before. *)
Theorem sigtstp_even_restores :
  (forall (g : string) (n : nat),
      foreground_mode_flag (deliver_SIGTSTP_times n (initial_shell g))
      = if Nat.even n then 0 else 1)
  /\ (forall (s : shell) (n : nat),
        foreground_mode_flag s = 0 \/ foreground_mode_flag s = 1 ->
        foreground_mode_flag (deliver_SIGTSTP_times (2 * n) s)
        = foreground_mode_flag s
        /\ forall (os : os_reply) (line : option string),
            iteration os line (deliver_SIGTSTP_times (2 * n) s)
            = iteration os line s).
Proof.
  split; [exact deliver_SIGTSTP_from_start|].
  intros s n H. now rewrite deliver_SIGTSTP_even.
Qed.

Lemma sigtstp_even_restores_witness :
  let s := fst (deliver_SIGTSTP (initial_shell "")) in
  foreground_mode_flag s = 1
  /\ foreground_mode_flag (deliver_SIGTSTP_times (2 * 3) s) = 1
  /\ iteration quiet_os (Some ("sleep 5 &" ++ nl)) (deliver_SIGTSTP_times (2 * 3) s)
     = iteration quiet_os (Some ("sleep 5 &" ++ nl)) s.
Proof.
  intros s.
  assert (H : foreground_mode_flag s = 0 \/ foreground_mode_flag s = 1)
    by (right; reflexivity).
  split; [reflexivity|].
  destruct (proj2 sigtstp_even_restores s 3%nat H) as [Hflag Hsame].
  split; [exact Hflag | apply Hsame].
Defined.

(** ** The [command_line] array *)

Lemma store_after (args : list string) (rest : list slot) (v : slot) :
  store (List.length args) v (map Ptr args ++ rest)
  = (map Ptr args ++ v :: tl rest)%list.
Proof.
  induction args as [|x args IH]; cbn [List.length map app store].
  - now destruct rest.
  - now rewrite IH.
Qed.

Lemma load_after (args : list string) (rest : list slot) (v : slot) :
  load (List.length args) (map Ptr args ++ v :: rest) = v.
Proof.
  unfold load. induction args as [|x args IH]; cbn [List.length map app nth];
    [reflexivity | exact IH].
Qed.

Lemma argv_of_arguments (args : list string) (rest : list slot) :
  argv_of (map Ptr args ++ Null :: rest) = args.
Proof.
  induction args as [|a args IH]; cbn [map app argv_of];
    [reflexivity | now rewrite IH].
Qed.

(** ** Job Reaper: proofs *)

Lemma reaper_trace (replies : list (Z * Z)) (s : shell) :
  snd (reaper replies s) = reap_trace replies.
Proof.
  revert s. induction replies as [|[ret status] more IH]; intros s;
    cbn [reaper reap_trace]; [reflexivity|].
  destruct (0 <? ret); [|reflexivity].
  specialize (IH (set_status (set_spawnPid s ret) status)).
  destruct (reaper more (set_status (set_spawnPid s ret) status)).
  cbn [snd] in *. now rewrite IH.
Qed.

Lemma reaper_state (replies : list (Z * Z)) (s : shell) :
  ShellState (fst (reaper replies s))
  = (foreground_mode_flag s, reap_status replies (child_exit_status s)).
Proof.
  revert s. induction replies as [|[ret status] more IH]; intros s;
    cbn [reaper reap_status]; [reflexivity|].
  destruct (0 <? ret); [|reflexivity].
  specialize (IH (set_status (set_spawnPid s ret) status)).
  destruct (reaper more (set_status (set_spawnPid s ret) status)).
  cbn [fst] in *. now rewrite IH.
Qed.

Lemma then_reap_effects (os : os_reply) (s : shell) (tr : list event) :
  effects (then_reap os s tr)
  = (Continues (foreground_mode_flag s,
                reap_status (os_reap os) (child_exit_status s)),
     (tr ++ reap_trace (os_reap os))%list).
Proof.
  unfold then_reap, effects.
  pose proof (reaper_trace (os_reap os) s) as Ht.
  pose proof (reaper_state (os_reap os) s) as Hs.
  destruct (reaper (os_reap os) s) as [s' tr']. cbn [fst snd] in *.
  cbn [ending_of trace]. now rewrite Ht, Hs.
Qed.

Lemma effects_before (pre : list event) (o : outcome) :
  effects (before pre o) = (fst (effects o), (pre ++ snd (effects o))%list).
Proof. now destruct o. Qed.

(** The Job Reaper only polls: it never blocks. *)
Lemma reap_trace_never_blocks (replies : list (Z * Z)) :
  existsb is_wait_for (reap_trace replies) = false
  /\ existsb is_fork (reap_trace replies) = false.
Proof.
  induction replies as [|[ret status] more [IH1 IH2]]; cbn [reap_trace];
    [split; reflexivity|].
  destruct (0 <? ret); cbn; auto.
Qed.

(** What the Job Reaper does is always there to see: its first call. *)
Lemma reap_trace_polls (replies : list (Z * Z)) :
  existsb is_wait_any (reap_trace replies) = true.
Proof.
  destruct replies as [|[ret status] more]; cbn [reap_trace]; [reflexivity|].
  now destruct (0 <? ret).
Qed.

(** ** The tokenizer always leaves a list of arguments *)

Lemma push_argument_arguments (t : tokenizer) (st arg : string)
  (args : list string) (stale : list slot) :
  arguments t args stale ->
  arguments (push_argument t st arg) (args ++ [arg]) (tl stale).
Proof.
  intros [Hi Hc]. split; cbn [push_argument t_index t_command_line].
  - rewrite Hi, length_app. cbn [List.length]. lia.
  - rewrite Hi, Hc, store_after, map_app, <- app_assoc. reflexivity.
Qed.

Lemma parse_tokens_arguments (pid : Z) (n : nat) :
  forall (tokens : list string) (t t' : tokenizer) (args : list string)
         (stale : list slot),
    (List.length tokens <= n)%nat ->
    arguments t args stale ->
    parse_tokens pid tokens t = Some t' ->
    exists more stale', arguments t' (args ++ more) stale'.
Proof.
  induction n as [|n IH]; intros tokens t t' args stale Hlen Hargs Hparse.
  - destruct tokens; [| cbn in Hlen; lia].
    injection Hparse as <-. exists [], stale. now rewrite app_nil_r.
  - destruct tokens as [|token rest].
    + injection Hparse as <-. exists [], stale. now rewrite app_nil_r.
    + cbn [List.length] in Hlen. cbn [parse_tokens] in Hparse.
      destruct (String.eqb token "<"); [| destruct (String.eqb token ">")].
      * destruct rest as [|path rest']; [discriminate|].
        destruct (sscanf_s 100 path (t_input_file t)) as [f|]; [|discriminate].
        apply (IH rest' (set_input_file t f) t' args stale);
          [cbn in Hlen; lia | exact Hargs | exact Hparse].
      * destruct rest as [|path rest']; [discriminate|].
        destruct (sscanf_s 100 path (t_output_file t)) as [f|]; [|discriminate].
        apply (IH rest' (set_output_file t f) t' args stale);
          [cbn in Hlen; lia | exact Hargs | exact Hparse].
      * destruct (contains_dd token);
          (destruct (sscanf_s 512 token (t_str t)) as [st|]; [|discriminate]).
        -- destruct (IH rest _ t' _ _ ltac:(lia)
                       (push_argument_arguments t st _ args stale Hargs) Hparse)
             as (more & stale' & H).
           rewrite <- app_assoc in H. eauto.
        -- destruct (IH rest _ t' _ _ ltac:(lia)
                       (push_argument_arguments t st _ args stale Hargs) Hparse)
             as (more & stale' & H).
           rewrite <- app_assoc in H. eauto.
Qed.

(** When the tokenizer loop ends, [command_line[0 .. index - 1]] all
    hold strings (none is NULL or unwritten) and [index] is their
    number. *)
Lemma tokenized_arguments (os : os_reply) (line : string) (s : shell)
  (t : tokenizer) :
  tokenized os line s t -> exists args stale, arguments t args stale.
Proof.
  intros H.
  apply (parse_tokens_arguments _ _ _ (tokenizer_start s) t [] (command_line s)
           (le_n _)) in H; [exact H | split; reflexivity].
Qed.

(** ** From the tokenizer to the dispatcher *)

Section Execute.

Variable os : os_reply.
Variable s : shell.
Variable line : string.
Variable t : tokenizer.

Hypothesis not_blank : first_char_is "010" line = false.

(** A line whose last argument is [&]: the marker is overwritten by
    NULL and [background_mode_flag] is set. *)
Lemma execute_marked (cmd : string) (args : list string) (stale : list slot) :
  arguments t (cmd :: args ++ ["&"]) stale ->
  first_char_is "#" cmd = false ->
  execute os s line t
  = dispatch os (dispatched s t (map Ptr (cmd :: args) ++ Null :: stale) 1)
      (S (S (List.length args))) (t_input_file t) (t_output_file t).
Proof.
  intros [Hi Hc] Hhash. unfold execute. rewrite not_blank, Hc.
  cbn [map app load nth]. rewrite Hhash, Hi.
  cbn [List.length]. rewrite length_app. cbn [List.length].
  replace (List.length args + 1)%nat with (S (List.length args)) by lia.
  cbn [nth store]. rewrite map_app. cbn [map]. rewrite <- app_assoc. cbn [app].
  fold (load (List.length args) (map Ptr args ++ Ptr "&" :: stale)).
  rewrite load_after. cbn [String.eqb Ascii.eqb Bool.eqb].
  rewrite store_after. unfold dispatched. now rewrite Hc.
Qed.

(** A line whose last argument is not [&]: NULL is written after it and
    [background_mode_flag] is cleared. *)
Lemma execute_unmarked (args : list string) (last : string)
  (stale : list slot) :
  arguments t (args ++ [last]) stale ->
  first_char_is "#" (hd last args) = false ->
  last <> "&" ->
  execute os s line t
  = dispatch os
      (dispatched s t (map Ptr (args ++ [last]) ++ Null :: tl stale) 0)
      (S (S (List.length args))) (t_input_file t) (t_output_file t).
Proof.
  intros [Hi Hc] Hhash Hlast. unfold execute. rewrite not_blank, Hc.
  assert (H0 : load 0 (map Ptr (args ++ [last]) ++ stale) = Ptr (hd last args))
    by (now destruct args).
  rewrite H0, Hhash, Hi. rewrite length_app. cbn [List.length].
  replace (List.length args + 1)%nat with (S (List.length args)) by lia.
  assert (H1 : load (List.length args) (map Ptr (args ++ [last]) ++ stale)
               = Ptr last).
  { rewrite map_app. cbn [map]. rewrite <- app_assoc. apply load_after. }
  rewrite H1. apply String.eqb_neq in Hlast. rewrite Hlast.
  assert (H2 : store (S (List.length args)) Null
                 (map Ptr (args ++ [last]) ++ stale)
               = (map Ptr (args ++ [last]) ++ Null :: tl stale)%list).
  { replace (S (List.length args)) with (List.length (args ++ [last]))
      by (rewrite length_app; cbn; lia).
    apply store_after. }
  rewrite H2. unfold dispatched. now rewrite Hc.
Qed.

End Execute.

(** Every line with a first argument that is not a comment, other than
    the lone [&], reaches the dispatcher with that argument in
    [command_line[0]]. *)
Lemma execute_dispatches (os : os_reply) (s : shell) (line : string)
  (t : tokenizer) (cmd : string) (args : list string) (stale : list slot) :
  first_char_is "010" line = false ->
  arguments t (cmd :: args) stale ->
  first_char_is "#" cmd = false ->
  cmd :: args <> ["&"] ->
  exists cl bg index,
    execute os s line t
    = dispatch os (dispatched s t (Ptr cmd :: cl) bg) index
        (t_input_file t) (t_output_file t).
Proof.
  intros Hblank Hargs Hhash Hlone.
  destruct (@exists_last _ (cmd :: args)) as (front & last & E);
    [discriminate|].
  destruct (String.eqb_spec last "&") as [-> | Hlast].
  - destruct front as [|c front]; [now rewrite E in Hlone|].
    cbn [app] in E. injection E as Hc Ha. subst cmd args.
    rewrite (execute_marked os s line t Hblank c front stale Hargs Hhash).
    cbn [map app]. now eexists _, 1, _.
  - rewrite E in Hargs.
    assert (Hhd : hd last front = cmd) by (destruct front; now injection E).
    rewrite (execute_unmarked os s line t Hblank front last stale Hargs);
      [| now rewrite Hhd | exact Hlast].
    rewrite <- E. cbn [map app]. now eexists _, 0, _.
Qed.

(** ** Command Dispatcher and Process Launcher: proofs *)

Lemma dispatch_external (os : os_reply) (s : shell) (cmd : string)
  (cl : list slot) (index : nat) (input_file output_file : string) :
  command_line s = Ptr cmd :: cl ->
  is_builtin cmd = false ->
  dispatch os s index input_file output_file
  = launch os s input_file output_file.
Proof.
  intros Hc Hb. unfold dispatch. rewrite Hc. cbn [load nth].
  unfold is_builtin in Hb.
  apply orb_false_elim in Hb as [Hb Hstatus].
  apply orb_false_elim in Hb as [Hexit Hcd].
  now rewrite Hexit, Hcd, Hstatus.
Qed.

Lemma iteration_tokenized (os : os_reply) (s : shell) (line : string)
  (t : tokenizer) :
  tokenized os line s t ->
  iteration os (Some line) s = before [prompt] (execute os s line t).
Proof. intros H. unfold iteration. unfold tokenized in H. now rewrite H. Qed.

(** C3, amended.  When [fork] fails the shell reports it with [perror]
    and then leaves through [_exit(1)]: the failure ends the shell
    itself, not only the command. *)
Theorem fork_failure_exits_shell (os : os_reply) (s : shell) (line : string)
  (t : tokenizer) (cmd : string) (args : list string) (stale : list slot) :
  tokenized os line s t ->
  first_char_is "010" line = false ->
  arguments t (cmd :: args) stale ->
  first_char_is "#" cmd = false ->
  cmd :: args <> ["&"] ->
  is_builtin cmd = false ->
  os_fork os = -1 ->
  iteration os (Some line) s
  = Exit 1 [prompt; Fork (-1); Perror ("fork() failed!" ++ nl)].
Proof.
  intros Htok Hblank Hargs Hhash Hlone Hext Hfork.
  rewrite (iteration_tokenized _ _ _ _ Htok).
  destruct (execute_dispatches os s line t cmd args stale
              Hblank Hargs Hhash Hlone) as (cl & bg & index & ->).
  rewrite (dispatch_external os _ cmd cl) by (reflexivity || exact Hext).
  unfold launch. now rewrite Hfork.
Qed.

Lemma fork_failure_exits_shell_witness :
  iteration (with_fork quiet_os (-1)) (Some ("ls -la" ++ nl)) (initial_shell "")
  = Exit 1 [prompt; Fork (-1); Perror ("fork() failed!" ++ nl)].
Proof.
  apply (fork_failure_exits_shell (with_fork quiet_os (-1)) (initial_shell "")
           ("ls -la" ++ nl)
           (tokenizer_of (with_fork quiet_os (-1)) ("ls -la" ++ nl)
              (initial_shell ""))
           "ls" ["-la"] []).
  - reflexivity.
  - reflexivity.
  - split; reflexivity.
  - reflexivity.
  - discriminate.
  - reflexivity.
  - reflexivity.
Defined.

(** C3 as stated fails: a failed [fork] for [ls] ends the shell with
    status 1 instead of taking it back to the prompt. *)
Lemma fork_failure_is_fatal :
  ending_of (iteration (with_fork quiet_os (-1)) (Some ("ls" ++ nl))
               (initial_shell ""))
  = Exits 1.
Proof. reflexivity. Qed.

Lemma dispatched_fields (s : shell) (t : tokenizer) (cl : list slot) (bg : Z) :
  command_line (dispatched s t cl bg) = cl
  /\ background_mode_flag (dispatched s t cl bg) = bg
  /\ foreground_mode_flag (dispatched s t cl bg) = foreground_mode_flag s
  /\ child_exit_status (dispatched s t cl bg) = child_exit_status s.
Proof. repeat split. Qed.

(** In the parent a successful [fork] is followed by the blocking
    [waitpid] or by the background message, and then by the Job Reaper. *)
Lemma launch_parent_effects (os : os_reply) (s : shell)
  (input_file output_file : string) :
  0 < os_fork os ->
  effects (launch os s input_file output_file)
  = if (foreground_mode_flag s =? 1) || (background_mode_flag s =? 0)
    then (Continues
            (foreground_mode_flag s,
             reap_status (os_reap os)
               (match os_wait os with
                | Some status => status
                | None => child_exit_status s
                end)),
          Fork (os_fork os) :: WaitFor (os_fork os) :: reap_trace (os_reap os))
    else if background_mode_flag s =? 1
    then (Continues
            (foreground_mode_flag s,
             reap_status (os_reap os) (child_exit_status s)),
          Fork (os_fork os)
          :: Print ("background pid is " ++ sprintf_d (os_fork os) ++ nl)
          :: reap_trace (os_reap os))
    else (Continues
            (foreground_mode_flag s,
             reap_status (os_reap os) (child_exit_status s)),
          Fork (os_fork os) :: reap_trace (os_reap os)).
Proof.
  intros Hpid. unfold launch.
  assert (H1 : (os_fork os =? -1) = false) by lia.
  assert (H0 : (os_fork os =? 0) = false) by lia.
  rewrite H1, H0, effects_before. unfold parent, waits_in_foreground.
  cbn [set_spawnPid foreground_mode_flag background_mode_flag].
  destruct ((foreground_mode_flag s =? 1) || (background_mode_flag s =? 0)).
  - rewrite then_reap_effects. now destruct (os_wait os).
  - destruct (background_mode_flag s =? 1); now rewrite then_reap_effects.
Qed.

(** The program image of a child whose redirections and [execvp]
    succeed. *)
Lemma child_execs (os : os_reply) (s : shell) (input_file output_file : string) :
  os_open_in os = true -> os_dup2_in os = true ->
  os_open_out os = true -> os_dup2_out os = true ->
  os_execvp os = true ->
  exists tr,
    child os s input_file output_file
    = Exec {| img_argv := argv_of (command_line s);
              img_sigint := if background_mode_flag s =? 0
                            then SIG_DFL else SIG_IGN;
              img_stdin := redirection input_file;
              img_stdout := redirection output_file |} tr.
Proof.
  intros Hoi Hdi Hoo Hdo Hex. unfold child. rewrite Hoi, Hdi, Hoo, Hdo, Hex.
  cbn [negb].
  destruct (String.eqb input_file ""), (String.eqb output_file "");
    eexists; reflexivity.
Qed.

(** X18.  When the entries the tokenizer leaves in [command_line] are
    the name of an external program, arguments and a last entry [&]:
    outside foreground-only mode the parent announces the child and
    goes on without a blocking wait; in foreground-only mode it blocks
    in [waitpid] for that child; in both modes the child's [argv] is
    the entries before the last [&]; and the parent skips the wait
    exactly when the marker is set and foreground-only mode is off. *)
Theorem background_marker_on_external (os : os_reply) (s : shell)
  (line : string) (t : tokenizer) (cmd : string) (args : list string)
  (stale : list slot) :
  tokenized os line s t ->
  first_char_is "010" line = false ->
  arguments t (cmd :: args ++ ["&"]) stale ->
  first_char_is "#" cmd = false ->
  is_builtin cmd = false ->
  (0 < os_fork os -> foreground_mode_flag s = 0 ->
   effects (iteration os (Some line) s)
   = (Continues (0, reap_status (os_reap os) (child_exit_status s)),
      prompt :: Fork (os_fork os)
      :: Print ("background pid is " ++ sprintf_d (os_fork os) ++ nl)
      :: reap_trace (os_reap os))
   /\ existsb is_wait_for (trace (iteration os (Some line) s)) = false)
  /\ (0 < os_fork os -> foreground_mode_flag s = 1 ->
      effects (iteration os (Some line) s)
      = (Continues (1, reap_status (os_reap os)
                         (match os_wait os with
                          | Some status => status
                          | None => child_exit_status s
                          end)),
         prompt :: Fork (os_fork os) :: WaitFor (os_fork os)
         :: reap_trace (os_reap os)))
  /\ (os_fork os = 0 ->
      os_open_in os = true -> os_dup2_in os = true ->
      os_open_out os = true -> os_dup2_out os = true ->
      os_execvp os = true ->
      exists tr,
        iteration os (Some line) s
        = Exec {| img_argv := cmd :: args;
                  img_sigint := SIG_IGN;
                  img_stdin := redirection (t_input_file t);
                  img_stdout := redirection (t_output_file t) |} tr)
  /\ (forall st : shell,
        foreground_mode_flag st = 0 \/ foreground_mode_flag st = 1 ->
        background_mode_flag st = 0 \/ background_mode_flag st = 1 ->
        negb (waits_in_foreground st)
        = (background_mode_flag st =? 1) && negb (foreground_mode_flag st =? 1)).
Proof.
  intros Htok Hblank Hargs Hhash Hext.
  rewrite (iteration_tokenized _ _ _ _ Htok).
  rewrite (execute_marked os s line t Hblank cmd args stale Hargs Hhash).
  cbn [map app].
  rewrite (dispatch_external os _ cmd (map Ptr args ++ Null :: stale))
    by (reflexivity || exact Hext).
  split; [| split; [| split]].
  - intros Hpid Hfg.
    assert (E : effects (before [prompt]
                  (launch os
                     (dispatched s t (Ptr cmd :: map Ptr args ++ Null :: stale) 1)
                     (t_input_file t) (t_output_file t)))
                = (Continues (0, reap_status (os_reap os) (child_exit_status s)),
                   prompt :: Fork (os_fork os)
                   :: Print ("background pid is " ++ sprintf_d (os_fork os) ++ nl)
                   :: reap_trace (os_reap os))).
    { rewrite effects_before, launch_parent_effects by exact Hpid.
      destruct (dispatched_fields s t
                  (Ptr cmd :: map Ptr args ++ Null :: stale) 1)
        as (_ & -> & -> & ->).
      rewrite Hfg. reflexivity. }
    split; [exact E|].
    apply (f_equal snd) in E. cbn [effects snd] in E. rewrite E.
    cbn [existsb is_wait_for orb].
    apply (reap_trace_never_blocks (os_reap os)).
  - intros Hpid Hfg.
    rewrite effects_before, launch_parent_effects by exact Hpid.
    destruct (dispatched_fields s t (Ptr cmd :: map Ptr args ++ Null :: stale) 1)
      as (_ & -> & -> & ->).
    rewrite Hfg. reflexivity.
  - intros Hfork Hoi Hdi Hoo Hdo Hex. unfold launch. rewrite Hfork. cbn [Z.eqb].
    destruct (child_execs os
                (set_spawnPid
                   (dispatched s t (Ptr cmd :: map Ptr args ++ Null :: stale) 1)
                   0)
                (t_input_file t) (t_output_file t) Hoi Hdi Hoo Hdo Hex)
      as [tr ->].
    eexists. cbn [before]. f_equal. f_equal.
    change (argv_of (map Ptr (cmd :: args) ++ Null :: stale) = cmd :: args).
    apply argv_of_arguments.
  - intros st [Hf | Hf] [Hb | Hb]; unfold waits_in_foreground;
      rewrite Hf, Hb; reflexivity.
Qed.

Lemma background_marker_on_external_witness :
  effects (iteration quiet_os (Some ("sleep 5 &" ++ nl)) (initial_shell ""))
  = (Continues (0, -5),
     [prompt; Fork 500; Print ("background pid is 500" ++ nl); WaitAny (-1)]).
Proof.
  assert (Hpid : 0 < os_fork quiet_os) by reflexivity.
  assert (Hfg : foreground_mode_flag (initial_shell "") = 0) by reflexivity.
  apply (proj1 (background_marker_on_external quiet_os (initial_shell "")
                  ("sleep 5 &" ++ nl)
                  (tokenizer_of quiet_os ("sleep 5 &" ++ nl) (initial_shell ""))
                  "sleep" ["5"] []
                  eq_refl eq_refl (conj eq_refl eq_refl) eq_refl eq_refl)
           Hpid Hfg).
Defined.

(** On a built-in the marker spawns nothing: [cd &] ends in the literal
    [&], foreground-only mode is off, and no child is forked. *)
Lemma cd_with_marker_spawns_nothing :
  strtok_all ("cd &" ++ nl) = ["cd"; "&" ++ nl]
  /\ foreground_mode_flag (initial_shell "") = 0
  /\ iteration quiet_os (Some ("cd &" ++ nl)) (initial_shell "")
     = Continue {| str := "&"; command_line := [Ptr "cd"; Null];
                   child_exit_status := -5; background_mode_flag := 1;
                   spawnPid := -1; foreground_mode_flag := 0 |}
         [prompt; ChdirHome; WaitAny (-1)]
  /\ existsb is_fork
       (trace (iteration quiet_os (Some ("cd &" ++ nl)) (initial_shell "")))
     = false.
Proof. repeat split. Qed.

(** The built-ins other than [exit]: what they do and that the Job
    Reaper follows. *)
Lemma dispatch_cd_effects (os : os_reply) (s : shell) (cl : list slot)
  (index : nat) (input_file output_file : string) :
  command_line s = Ptr "cd" :: cl ->
  effects (dispatch os s index input_file output_file)
  = (Continues (foreground_mode_flag s,
                reap_status (os_reap os) (child_exit_status s)),
     (if Z.of_nat index - 1 =? 1 then ChdirHome else Chdir (load 0 cl))
     :: reap_trace (os_reap os)).
Proof.
  intros Hc. unfold dispatch. rewrite Hc. cbn [load nth String.eqb Ascii.eqb Bool.eqb].
  now rewrite then_reap_effects.
Qed.

Lemma dispatch_status_effects (os : os_reply) (s : shell) (cl : list slot)
  (index : nat) (input_file output_file : string) :
  command_line s = Ptr "status" :: cl ->
  effects (dispatch os s index input_file output_file)
  = (Continues (foreground_mode_flag s,
                reap_status (os_reap os) (child_exit_status s)),
     Print (status_text (child_exit_status s)) :: reap_trace (os_reap os)).
Proof.
  intros Hc. unfold dispatch. rewrite Hc. cbn [load nth String.eqb Ascii.eqb Bool.eqb].
  now rewrite then_reap_effects.
Qed.

Lemma dispatch_exit (os : os_reply) (s : shell) (cl : list slot)
  (index : nat) (input_file output_file : string) :
  command_line s = Ptr "exit" :: cl ->
  dispatch os s index input_file output_file = Exit 0 [].
Proof. intros Hc. unfold dispatch. now rewrite Hc. Qed.

Lemma is_builtin_cases (cmd : string) :
  is_builtin cmd = true -> cmd = "exit" \/ cmd = "cd" \/ cmd = "status".
Proof.
  unfold is_builtin. intros H.
  apply orb_prop in H as [H | H]; [apply orb_prop in H as [H | H]|];
    apply String.eqb_eq in H; auto.
Qed.



Lemma then_reap_eq (os : os_reply) (s : shell) (tr : list event) :
  then_reap os s tr
  = Continue (fst (reaper (os_reap os) s)) (tr ++ reap_trace (os_reap os)).
Proof.
  unfold then_reap. rewrite <- (reaper_trace (os_reap os) s).
  now destruct (reaper (os_reap os) s).
Qed.






(** ** No-op lines and the Job Reaper *)

(** The array as the test of line 161 sees it. *)
Lemma execute_noop (os : os_reply) (s : shell) (line : string) (t : tokenizer) :
  let cl := if first_char_is "010" line
            then store 0 Null (t_command_line t)
            else t_command_line t in
  load 0 cl = Null
  \/ (exists c, load 0 cl = Ptr c /\ first_char_is "#" c = true) ->
  execute os s line t = Continue (set_parsed s (t_str t) cl) [].
Proof.
  intros cl H. unfold execute. fold cl.
  destruct H as [-> | (c & -> & ->)]; reflexivity.
Qed.

Lemma dispatch_reaps (os : os_reply) (s : shell) (cmd : string)
  (cl : list slot) (index : nat) (input_file output_file : string) :
  command_line s = Ptr cmd :: cl ->
  cmd <> "exit" ->
  is_builtin cmd = true \/ 0 < os_fork os ->
  exists state tr0,
    effects (dispatch os s index input_file output_file)
    = (Continues state, (tr0 ++ reap_trace (os_reap os))%list)
    /\ existsb is_wait_any tr0 = false.
Proof.
  intros Hc Hexit Hcase.
  destruct (is_builtin cmd) eqn:Hb.
  - destruct (is_builtin_cases cmd Hb) as [-> | [-> | ->]]; [congruence| |].
    + rewrite (dispatch_cd_effects os s cl index _ _ Hc).
      eexists _, [_]. split; [reflexivity|].
      now destruct (Z.of_nat index - 1 =? 1).
    + rewrite (dispatch_status_effects os s cl index _ _ Hc).
      eexists _, [_]. split; reflexivity.
  - destruct Hcase as [Hcase | Hpid]; [discriminate|].
    rewrite (dispatch_external os s cmd cl index _ _ Hc Hb).
    rewrite launch_parent_effects by exact Hpid.
    destruct ((foreground_mode_flag s =? 1) || (background_mode_flag s =? 0));
      [| destruct (background_mode_flag s =? 1)].
    + eexists _, [_; _]. split; reflexivity.
    + eexists _, [_; _]. split; reflexivity.
    + eexists _, [_]. split; reflexivity.
Qed.

(** C2, amended.  On an empty line or a comment nothing at all is done
    after the prompt: the Job Reaper is not run.  On every line that is
    dispatched as [cd], as [status], or as an external command whose
    [fork] succeeds in the parent, the Job Reaper runs once the
    dispatcher is done. *)
Theorem reaper_runs_after_dispatch_only :
  (forall (os : os_reply) (s : shell) (line : string) (t : tokenizer),
      tokenized os line s t ->
      let cl := if first_char_is "010" line
                then store 0 Null (t_command_line t)
                else t_command_line t in
      load 0 cl = Null
      \/ (exists c, load 0 cl = Ptr c /\ first_char_is "#" c = true) ->
      iteration os (Some line) s
      = Continue (set_parsed s (t_str t) cl) [prompt])
  /\ (forall (os : os_reply) (s : shell) (line : string) (t : tokenizer)
        (cmd : string) (args : list string) (stale : list slot),
        tokenized os line s t ->
        first_char_is "010" line = false ->
        arguments t (cmd :: args) stale ->
        first_char_is "#" cmd = false ->
        cmd :: args <> ["&"] ->
        cmd <> "exit" ->
        is_builtin cmd = true \/ 0 < os_fork os ->
        exists state tr0,
          effects (iteration os (Some line) s)
          = (Continues state, (prompt :: tr0 ++ reap_trace (os_reap os))%list)
          /\ existsb is_wait_any tr0 = false).
Proof.
  split.
  - intros os s line t Htok cl H.
    rewrite (iteration_tokenized _ _ _ _ Htok).
    now rewrite (execute_noop os s line t H).
  - intros os s line t cmd args stale Htok Hblank Hargs Hhash Hlone Hexit Hcase.
    rewrite (iteration_tokenized _ _ _ _ Htok).
    destruct (execute_dispatches os s line t cmd args stale
                Hblank Hargs Hhash Hlone) as (cl & bg & index & ->).
    destruct (dispatch_reaps os (dispatched s t (Ptr cmd :: cl) bg) cmd cl index
                (t_input_file t) (t_output_file t) eq_refl Hexit Hcase)
      as (state & tr0 & He & Hw).
    exists state, tr0. rewrite effects_before, He. now split.
Qed.

Lemma reaper_runs_after_dispatch_only_witness :
  iteration quiet_os (Some ("# a comment" ++ nl)) (initial_shell "")
  = Continue {| str := "comment"; command_line := [Ptr "#"; Ptr "a"; Ptr "comment"];
                child_exit_status := -5; background_mode_flag := 0;
                spawnPid := -5; foreground_mode_flag := 0 |} [prompt]
  /\ exists state tr0,
      effects (iteration (with_reap quiet_os [(77, status_exited 0)])
                 (Some ("status" ++ nl)) (initial_shell ""))
      = (Continues state,
         (prompt :: tr0
          ++ reap_trace (os_reap (with_reap quiet_os [(77, status_exited 0)])))%list)
      /\ existsb is_wait_any tr0 = false.
Proof.
  split.
  - apply (proj1 reaper_runs_after_dispatch_only quiet_os (initial_shell "")
             ("# a comment" ++ nl)
             (tokenizer_of quiet_os ("# a comment" ++ nl) (initial_shell ""))
             eq_refl).
    right. exists "#". split; reflexivity.
  - assert (Hlone : "status" :: [] <> ["&"]) by discriminate.
    assert (Hexit : "status" <> "exit") by discriminate.
    apply (proj2 reaper_runs_after_dispatch_only
             (with_reap quiet_os [(77, status_exited 0)]) (initial_shell "")
             ("status" ++ nl)
             (tokenizer_of (with_reap quiet_os [(77, status_exited 0)])
                ("status" ++ nl) (initial_shell ""))
             "status" [] []
             eq_refl eq_refl (conj eq_refl eq_refl) eq_refl Hlone Hexit
             (or_introl eq_refl)).
Defined.

(** C2 as stated fails: background child 77 has finished, the line is
    empty, and the iteration ends after the prompt without a single
    [waitpid]; the same holds for a comment. *)
Lemma blank_line_skips_reaper :
  trace (iteration (with_reap quiet_os [(77, status_exited 0)]) (Some nl)
           (initial_shell ""))
  = [prompt]
  /\ trace (iteration (with_reap quiet_os [(77, status_exited 0)])
              (Some ("# note" ++ nl)) (initial_shell ""))
     = [prompt]
  /\ trace (iteration (with_reap quiet_os [(77, status_exited 0)])
              (Some ("cd" ++ nl)) (initial_shell ""))
     = [prompt; ChdirHome; WaitAny 77;
        Print "background pid 77 is done: "; Print ("exit value 0" ++ nl);
        WaitAny (-1)].
Proof. repeat split. Qed.

(** An empty line, or end of input, does nothing and leaves ShellState
    as it was. *)
Lemma empty_line_is_noop (os : os_reply) (s : shell) :
  (exists s', iteration os (Some nl) s = Continue s' [prompt]
              /\ ShellState s' = ShellState s)
  /\ iteration os None s = iteration os (Some nl) s.
Proof.
  split; [|reflexivity].
  destruct s as [st [|c cl] ces bg sp fg]; eexists; split; reflexivity.
Qed.

(** A comment does nothing and leaves ShellState as it was. *)
Lemma comment_line_is_noop (os : os_reply) (s : shell) (line : string)
  (t : tokenizer) (c : string) (args : list string) (stale : list slot) :
  tokenized os line s t ->
  first_char_is "010" line = false ->
  arguments t (c :: args) stale ->
  first_char_is "#" c = true ->
  exists s', iteration os (Some line) s = Continue s' [prompt]
             /\ ShellState s' = ShellState s.
Proof.
  intros Htok Hblank [_ Hc] Hhash.
  rewrite (iteration_tokenized _ _ _ _ Htok).
  rewrite (execute_noop os s line t).
  - eexists. split; reflexivity.
  - rewrite Hblank, Hc. right. exists c. now split.
Qed.

(** C9 fails on a line of spaces.  After [ls], the line of three spaces
    makes [sscanf] store nothing, [str] still holds [ls], and [ls] is
    dispatched a second time: in the parent a second child is forked and
    waited for and its status (here: exit code 2) replaces the last
    status; in the child the program run is [ls]. *)
Theorem spaces_line_dispatches_stale_token :
  effects (run [quiet_os; with_wait quiet_os (Some (status_exited 2))]
             ("ls" ++ nl ++ "   " ++ nl) (initial_shell ""))
  = (Continues (0, 512),
     [prompt; Fork 500; WaitFor 500; WaitAny (-1);
      prompt; Fork 500; WaitFor 500; WaitAny (-1)])
  /\ run [quiet_os; with_fork quiet_os 0]
       ("ls" ++ nl ++ "   " ++ nl) (initial_shell "")
     = Exec {| img_argv := ["ls"]; img_sigint := SIG_DFL;
               img_stdin := None; img_stdout := None |}
         [prompt; Fork 500; WaitFor 500; WaitAny (-1);
          prompt; Fork 0; Sigaction_SIGINT SIG_DFL].
Proof. split; reflexivity. Qed.

(** C7 fails on the lone [&].  The marker is overwritten by NULL, which
    leaves [command_line[0]] NULL, and [strcmp] is called on it.  A line
    that ends in [<] without a newline hands NULL to [sscanf]; with the
    newline the [<] is not recognised and goes to the program as an
    argument. *)
Theorem lone_marker_crashes :
  (forall (os : os_reply) (s : shell),
      iteration os (Some ("&" ++ nl)) s = Crash [prompt])
  /\ (forall (os : os_reply) (s : shell),
        run [os] "cat <" s = Crash [prompt])
  /\ iteration (with_fork quiet_os 0) (Some ("cat <" ++ nl)) (initial_shell "")
     = Exec {| img_argv := ["cat"; "<"]; img_sigint := SIG_DFL;
               img_stdin := None; img_stdout := None |}
         [prompt; Fork 0; Sigaction_SIGINT SIG_DFL].
Proof.
  split; [| split].
  - intros os [st [|c cl] ces bg sp fg]; reflexivity.
  - intros os s. reflexivity.
  - reflexivity.
Qed.

(** C5 fails in foreground-only mode.  After one SIGTSTP the line
    [sleep 100 &] is waited for by the parent, yet in the child
    [background_mode_flag] is 1, [sigaction] is not called, and the
    program starts with SIGINT ignored. *)
Theorem forced_foreground_child_ignores_sigint :
  foreground_mode_flag (fst (deliver_SIGTSTP (initial_shell ""))) = 1
  /\ trace (iteration quiet_os (Some ("sleep 100 &" ++ nl))
              (fst (deliver_SIGTSTP (initial_shell ""))))
     = [prompt; Fork 500; WaitFor 500; WaitAny (-1)]
  /\ iteration (with_fork quiet_os 0) (Some ("sleep 100 &" ++ nl))
       (fst (deliver_SIGTSTP (initial_shell "")))
     = Exec {| img_argv := ["sleep"; "100"]; img_sigint := SIG_IGN;
               img_stdin := None; img_stdout := None |}
         [prompt; Fork 0].
Proof. repeat split. Qed.

(** X15.  The part of C5 that holds: the child of a line that names an
    external program and does not end in [&] sets SIGINT back to its
    default first, before any redirection, and then runs the program
    with exactly the arguments of the line; this does not depend on
    foreground-only mode. *)
Lemma unmarked_child_restores_sigint (os : os_reply) (s : shell)
  (line : string) (t : tokenizer) (args : list string) (last : string)
  (stale : list slot) :
  tokenized os line s t ->
  first_char_is "010" line = false ->
  arguments t (args ++ [last]) stale ->
  first_char_is "#" (hd last args) = false ->
  is_builtin (hd last args) = false ->
  last <> "&" ->
  os_fork os = 0 ->
  os_open_in os = true -> os_dup2_in os = true ->
  os_open_out os = true -> os_dup2_out os = true ->
  os_execvp os = true ->
  exists tr,
    iteration os (Some line) s
    = Exec {| img_argv := args ++ [last];
              img_sigint := SIG_DFL;
              img_stdin := redirection (t_input_file t);
              img_stdout := redirection (t_output_file t) |}
        (prompt :: Fork 0 :: Sigaction_SIGINT SIG_DFL :: tr).
Proof.
  intros Htok Hblank Hargs Hhash Hext Hlast Hfork Hoi Hdi Hoo Hdo Hex.
  rewrite (iteration_tokenized _ _ _ _ Htok).
  rewrite (execute_unmarked os s line t Hblank args last stale Hargs Hhash Hlast).
  assert (Hcl : exists cl, (map Ptr (args ++ [last]) ++ Null :: tl stale)%list
                           = Ptr (hd last args) :: cl)
    by (destruct args; eexists; reflexivity).
  destruct Hcl as [cl Hcl].
  rewrite (dispatch_external os _ (hd last args) cl)
    by (exact Hcl || exact Hext).
  unfold launch. rewrite Hfork. cbn [Z.eqb].
  unfold child. rewrite Hoi, Hdi, Hoo, Hdo, Hex. cbn [negb].
  cbn [set_spawnPid dispatched set_background background_mode_flag
       command_line Z.eqb].
  rewrite argv_of_arguments.
  destruct (String.eqb (t_input_file t) ""), (String.eqb (t_output_file t) "");
    eexists; reflexivity.
Qed.

(** ** The wait status and the [status] built-in *)

Lemma WTERMSIG_mod (status : Z) : WTERMSIG status = status mod 128.
Proof.
  unfold WTERMSIG. change 127 with (Z.ones 7).
  now rewrite Z.land_ones by lia.
Qed.

Lemma land_255 (n : Z) : 0 <= n <= 255 -> Z.land n 255 = n.
Proof.
  intros H. change 255 with (Z.ones 8). rewrite Z.land_ones by lia.
  apply Z.mod_small. change (2 ^ 8) with 256. lia.
Qed.

Lemma WIFEXITED_exited (code : Z) : WIFEXITED (status_exited code) = true.
Proof.
  unfold WIFEXITED, status_exited. rewrite WTERMSIG_mod.
  rewrite Z.shiftl_mul_pow2 by lia. change (2 ^ 8) with (2 * 128).
  rewrite Z.mul_assoc, Z.mod_mul by lia. reflexivity.
Qed.

Lemma WEXITSTATUS_exited (code : Z) :
  0 <= code <= 255 -> WEXITSTATUS (status_exited code) = code.
Proof.
  intros H. unfold WEXITSTATUS, status_exited. rewrite (land_255 code H).
  change 65280 with (Z.shiftl 255 8).
  rewrite <- Z.shiftl_land, (land_255 code H).
  rewrite Z.shiftr_shiftl_l by lia. apply Z.shiftl_0_r.
Qed.

(** After a normal exit with code [N], [status] prints exactly [N]. *)
Lemma status_text_exited (code : Z) :
  0 <= code <= 255 ->
  status_text (status_exited code) = "exit value " ++ sprintf_d code ++ nl.
Proof.
  intros H. unfold status_text.
  now rewrite WIFEXITED_exited, WEXITSTATUS_exited.
Qed.

(** After termination by signal [S] without a core dump, [status] prints
    exactly [S]. *)
Lemma status_text_signaled (sig : Z) :
  0 < sig < 128 ->
  status_text (status_signaled sig false)
  = "terminated by signal " ++ sprintf_d sig ++ nl.
Proof.
  intros H. unfold status_text, status_signaled, WIFEXITED.
  rewrite Z.lor_0_r, WTERMSIG_mod, Z.mod_small by lia.
  destruct (Z.eqb_spec sig 0); [lia | reflexivity].
Qed.

(** With a core dump the raw status is printed, not the signal. *)
Example status_text_core_dump :
  status_text (status_signaled 11 true) = "terminated by signal 139" ++ nl.
Proof. reflexivity. Qed.

(** A foreground command followed by [status], with no background child
    finishing in between: the exit code of the command is printed. *)
Example status_after_foreground_exit :
  trace (run [with_wait quiet_os (Some (status_exited 3)); quiet_os]
           ("false" ++ nl ++ "status" ++ nl) (initial_shell ""))
  = [prompt; Fork 500; WaitFor 500; WaitAny (-1);
     prompt; Print ("exit value 3" ++ nl); WaitAny (-1)].
Proof. reflexivity. Qed.

(** C1 fails in two places.  Before any foreground command [status]
    prints the initial -5 as a signal.  And the Job Reaper stores the
    status of a finished background child in the variable [status]
    prints: here [false] has just exited with code 1 in the foreground,
    background child 77 is then reaped with exit code 0, and [status]
    prints 0. *)
Theorem status_initial_and_after_reap :
  (forall (os : os_reply) (g : string),
      effects (iteration os (Some ("status" ++ nl)) (initial_shell g))
      = (Continues (0, reap_status (os_reap os) (-5)),
         prompt :: Print ("terminated by signal -5" ++ nl)
         :: reap_trace (os_reap os)))
  /\ trace (run [with_fork quiet_os 77;
                 with_reap (with_wait (with_fork quiet_os 78)
                              (Some (status_exited 1)))
                   [(77, status_exited 0)];
                 quiet_os]
              ("sleep 1 &" ++ nl ++ "false" ++ nl ++ "status" ++ nl)
              (initial_shell ""))
     = [prompt; Fork 77; Print ("background pid is 77" ++ nl); WaitAny (-1);
        prompt; Fork 78; WaitFor 78;
        WaitAny 77; Print "background pid 77 is done: ";
        Print ("exit value 0" ++ nl); WaitAny (-1);
        prompt; Print ("exit value 0" ++ nl); WaitAny (-1)].
Proof.
  split; [| reflexivity].
  intros os g. unfold iteration.
  change (parse_tokens (os_getpid os) (strtok_all ("status" ++ nl))
            (tokenizer_start (initial_shell g)))
    with (Some {| t_str := "status"; t_input_file := ""; t_output_file := "";
                  t_index := 1; t_command_line := [Ptr "status"] |}).
  rewrite effects_before.
  change (execute os (initial_shell g) ("status" ++ nl)
            {| t_str := "status"; t_input_file := ""; t_output_file := "";
               t_index := 1; t_command_line := [Ptr "status"] |})
    with (then_reap os
            {| str := "status"; command_line := [Ptr "status"; Null];
               child_exit_status := -5; background_mode_flag := 0;
               spawnPid := -5; foreground_mode_flag := 0 |}
            [Print ("terminated by signal -5" ++ nl)]).
  now rewrite then_reap_effects.
Qed.


(** ** The loop on whole sessions *)

(** Redirection operators and their paths are taken out of [argv]. *)
Example redirections_are_consumed :
  iteration (with_fork quiet_os 0)
    (Some ("wc -l < in.txt > out.txt" ++ nl)) (initial_shell "")
  = Exec {| img_argv := ["wc"; "-l"]; img_sigint := SIG_DFL;
            img_stdin := Some "in.txt"; img_stdout := Some "out.txt" |}
      [prompt; Fork 0; Sigaction_SIGINT SIG_DFL;
       OpenRead "in.txt"; Dup2 0; OpenWrite "out.txt"; Dup2 1].
Proof. reflexivity. Qed.

(** A missing input file ends the child, not the shell. *)
Example missing_input_file_ends_child :
  iteration
    {| os_getpid := 1234; os_fork := 0; os_wait := None; os_reap := [];
       os_open_in := false; os_dup2_in := true;
       os_open_out := true; os_dup2_out := true; os_execvp := true |}
    (Some ("cat < nowhere" ++ nl)) (initial_shell "")
  = Exit 1 [prompt; Fork 0; Sigaction_SIGINT SIG_DFL; OpenRead "nowhere";
            Print ("nowhere: no such file or directory" ++ nl)].
Proof. reflexivity. Qed.

(** C4 fails on a line with a space before the newline.  [strtok]
    then returns the token ["\n"] last, [sscanf] stores nothing for
    it, and [str], which still holds [&], is stored a second time:
    [command_line] is [sleep 5 & &].  Only the last [&] is replaced by
    NULL: the command runs in the background and the program gets the
    first [&] as an argument. *)
Theorem space_before_newline_passes_marker :
  strtok_all ("sleep 5 & " ++ nl) = ["sleep"; "5"; "&"; nl]
  /\ iteration (with_fork quiet_os 0) (Some ("sleep 5 & " ++ nl))
       (initial_shell "")
     = Exec {| img_argv := ["sleep"; "5"; "&"]; img_sigint := SIG_IGN;
               img_stdin := None; img_stdout := None |}
         [prompt; Fork 0]
  /\ iteration quiet_os (Some ("sleep 5 & " ++ nl)) (initial_shell "")
     = Continue {| str := "&";
                   command_line := [Ptr "sleep"; Ptr "5"; Ptr "&"; Null];
                   child_exit_status := -5; background_mode_flag := 1;
                   spawnPid := -1; foreground_mode_flag := 0 |}
         [prompt; Fork 500; Print ("background pid is 500" ++ nl);
          WaitAny (-1)]
  /\ iteration (with_fork quiet_os 0) (Some ("sleep 5 &" ++ nl))
       (initial_shell "")
     = Exec {| img_argv := ["sleep"; "5"]; img_sigint := SIG_IGN;
               img_stdin := None; img_stdout := None |}
         [prompt; Fork 0].
Proof. repeat split. Qed.

(** C6 fails on the path of a redirection and on a token with a tab.
    The token after [<] or [>] goes through [sscanf] straight into
    [input_file] or [output_file] (lines 129-139) and never reaches the
    expansion of line 141: the child opens [in$$] and [out$$].  A token
    is cut by [strtok] at spaces only, and [sscanf] keeps its first
    word: of the token [a<TAB>b$$] only [a] is stored, the placeholder
    and the characters around it are lost.  The same [in$$] as an
    argument is expanded. *)
Theorem redirection_path_is_not_expanded :
  iteration (with_fork quiet_os 0) (Some ("cat < in$$ > out$$" ++ nl))
    (initial_shell "")
  = Exec {| img_argv := ["cat"]; img_sigint := SIG_DFL;
            img_stdin := Some "in$$"; img_stdout := Some "out$$" |}
      [prompt; Fork 0; Sigaction_SIGINT SIG_DFL;
       OpenRead "in$$"; Dup2 0; OpenWrite "out$$"; Dup2 1]
  /\ iteration (with_fork quiet_os 0)
       (Some ("echo a" ++ String "009" "b$$" ++ nl)) (initial_shell "")
     = Exec {| img_argv := ["echo"; "a"]; img_sigint := SIG_DFL;
               img_stdin := None; img_stdout := None |}
         [prompt; Fork 0; Sigaction_SIGINT SIG_DFL]
  /\ iteration (with_fork quiet_os 0) (Some ("cat in$$" ++ nl))
       (initial_shell "")
     = Exec {| img_argv := ["cat"; "in1234"]; img_sigint := SIG_DFL;
               img_stdin := None; img_stdout := None |}
         [prompt; Fork 0; Sigaction_SIGINT SIG_DFL].
Proof. repeat split. Qed.

(** At end of input [fgets] stores nothing and every iteration is an
    empty line. *)
Example end_of_input_keeps_prompting :
  run [quiet_os; quiet_os; quiet_os] ("exit" ++ nl) (initial_shell "")
  = Exit 0 [prompt]
  /\ trace (run [quiet_os; quiet_os; quiet_os] "" (initial_shell ""))
     = [prompt; prompt; prompt].
Proof. split; reflexivity. Qed.

(** [fgets] cuts a long line at 2047 characters. *)
Lemma fgets_from_length (n : nat) (stdin : string) :
  (String.length (fst (fgets_from n stdin)) <= n)%nat.
Proof.
  revert stdin. induction n as [|n IH]; intros stdin; [cbn; lia|].
  destruct stdin as [|c rest]; [cbn; lia|].
  cbn [fgets_from]. destruct (Ascii.eqb c "010"); [cbn; lia|].
  specialize (IH rest). destruct (fgets_from n rest). cbn in *. lia.
Qed.

(** * Further properties of the code *)

(** ** [replace_double_dollarsigns]: what is left after expansion *)

Lemma string_of_uint_no_dollar (d : Decimal.uint) :
  no_dollar (NilEmpty.string_of_uint d) = true.
Proof. induction d; cbn; auto. Qed.

Lemma sprintf_d_no_dollar (n : Z) : no_dollar (sprintf_d n) = true.
Proof.
  unfold sprintf_d. destruct (Z.to_int n) as [d | d]; cbn [NilZero.string_of_int].
  - destruct d; try reflexivity; apply string_of_uint_no_dollar.
  - cbn [no_dollar]. destruct d; try reflexivity; apply string_of_uint_no_dollar.
Qed.

Lemma sprintf_d_first (n : Z) :
  exists c rest, sprintf_d n = String c rest /\ is_dollar c = false.
Proof.
  pose proof (sprintf_d_no_dollar n) as H.
  assert (Hne : sprintf_d n <> "").
  { unfold sprintf_d. destruct (Z.to_int n) as [d | d]; [|discriminate].
    cbn [NilZero.string_of_int]. destruct d; discriminate. }
  destruct (sprintf_d n) as [|c rest]; [congruence|].
  cbn [no_dollar] in H. apply andb_prop in H as [H _].
  exists c, rest. split; [reflexivity | now apply negb_true_iff].
Qed.

Lemma contains_dd_after_no_dollar (a b : string) :
  no_dollar a = true -> contains_dd (a ++ b) = contains_dd b.
Proof.
  induction a as [|c a IH]; [reflexivity|].
  cbn [no_dollar]. intros H. apply andb_prop in H as [Hc Ha].
  apply negb_true_iff in Hc.
  change (String c a ++ b) with (String c (a ++ b)).
  cbn [contains_dd]. rewrite (IH Ha).
  assert (Hs : starts_dd (String c (a ++ b)) = false)
    by (cbn [starts_dd]; rewrite Hc; now destruct (a ++ b)).
  now rewrite Hs.
Qed.

(** X2.  The expanded string holds no placeholder any more, whatever
    the token was, so expanding it again (with any number) changes
    nothing. *)
Theorem replace_double_dollarsigns_leaves_none (str : string) (pid : Z) :
  contains_dd (replace_double_dollarsigns str pid) = false
  /\ forall pid' : Z,
      replace_double_dollarsigns (replace_double_dollarsigns str pid) pid'
      = replace_double_dollarsigns str pid.
Proof.
  assert (H : contains_dd (replace_double_dollarsigns str pid) = false).
  { induction str as [| c | c d r IHr IHd] using string_ind2.
    - reflexivity.
    - reflexivity.
    - rewrite replace_two. destruct (is_dollar c && is_dollar d) eqn:E.
      + now rewrite contains_dd_after_no_dollar by apply sprintf_d_no_dollar.
      + cbn [contains_dd]. rewrite IHd, orb_false_r.
        destruct r as [|e r'].
        * exact E.
        * rewrite replace_two. destruct (is_dollar d && is_dollar e).
          -- destruct (sprintf_d_first pid) as (x & rest & -> & Hx).
             cbn [append starts_dd]. rewrite Hx. apply andb_false_r.
          -- exact E. }
  split; [exact H|]. intros pid'. now apply replace_no_placeholder.
Qed.

(** ** [strtok]: the tokens of a line *)

Lemma no_blank_append (a b : string) :
  no_blank (a ++ b) = no_blank a && no_blank b.
Proof.
  induction a as [|c a IH]; [reflexivity|].
  cbn [append no_blank]. now rewrite IH, andb_assoc.
Qed.

Lemma append_not_empty (a : string) (c : ascii) : a ++ String c "" <> "".
Proof. now destruct a. Qed.

Lemma eqb_empty_false (a : string) : a <> "" -> String.eqb a "" = false.
Proof. intros H. now apply String.eqb_neq. Qed.

Lemma strtok_from_tokens (s cur : string) :
  no_blank cur = true ->
  Forall (fun token => token <> "" /\ no_blank token = true)
    (strtok_from cur s).
Proof.
  revert cur. induction s as [|c s IH]; intros cur Hcur; cbn [strtok_from].
  - destruct (String.eqb_spec cur ""); [constructor|].
    constructor; [now split | constructor].
  - destruct (Ascii.eqb c " ") eqn:Ec.
    + destruct (String.eqb_spec cur "").
      * now apply IH.
      * constructor; [now split | now apply IH].
    + apply IH. rewrite no_blank_append, Hcur. cbn [no_blank]. now rewrite Ec.
Qed.

Lemma strtok_from_word (w s cur : string) :
  no_blank w = true ->
  strtok_from cur (w ++ s) = strtok_from (cur ++ w) s.
Proof.
  revert cur. induction w as [|c w IH]; intros cur Hw.
  - now rewrite append_empty_r.
  - cbn [no_blank] in Hw. apply andb_prop in Hw as [Hc Hw].
    apply negb_true_iff in Hc.
    change (String c w ++ s) with (String c (w ++ s)).
    cbn [strtok_from]. rewrite Hc, (IH _ Hw), append_assoc. reflexivity.
Qed.

Lemma strtok_all_concat (tokens : list string) :
  Forall (fun token => token <> "" /\ no_blank token = true) tokens ->
  strtok_all (String.concat " " tokens) = tokens.
Proof.
  unfold strtok_all. induction 1 as [|token rest [Hne Hnb] Hrest IH];
    [reflexivity|].
  cbn [String.concat]. destruct rest as [|next rest'].
  - rewrite <- (append_empty_r token) at 1.
    rewrite strtok_from_word by exact Hnb. cbn [append strtok_from].
    now rewrite eqb_empty_false.
  - rewrite strtok_from_word by exact Hnb. cbn [append strtok_from Ascii.eqb Bool.eqb].
    rewrite eqb_empty_false by exact Hne. now rewrite IH.
Qed.

(** X3.  The tokens [strtok] cuts out of a line are never empty and
    hold no space; and a line made of such tokens with one space
    between them is cut back into exactly these tokens. *)
Theorem strtok_all_tokens :
  (forall line : string,
      Forall (fun token => token <> "" /\ no_blank token = true)
        (strtok_all line))
  /\ (forall tokens : list string,
        Forall (fun token => token <> "" /\ no_blank token = true) tokens ->
        strtok_all (String.concat " " tokens) = tokens).
Proof.
  split; [intros line; now apply strtok_from_tokens | exact strtok_all_concat].
Qed.

Lemma strtok_all_tokens_witness :
  strtok_all (String.concat " " ["wc"; "-l"; "<"; "out.txt" ++ nl])
  = ["wc"; "-l"; "<"; "out.txt" ++ nl].
Proof.
  apply (proj2 strtok_all_tokens).
  repeat constructor; discriminate.
Defined.

(** ** [command_line] is large enough *)

Lemma strtok_from_count (s cur : string) :
  (2 * List.length (strtok_from cur s)
   <= String.length s + (if String.eqb cur "" then 1 else 2))%nat.
Proof.
  revert cur. induction s as [|c s IH]; intros cur; cbn [strtok_from String.length].
  - destruct (String.eqb cur ""); cbn; lia.
  - destruct (Ascii.eqb c " ").
    + specialize (IH ""). cbn [String.eqb] in IH.
      destruct (String.eqb cur ""); cbn [List.length]; lia.
    + specialize (IH (cur ++ String c "")).
      rewrite eqb_empty_false in IH by apply append_not_empty.
      destruct (String.eqb cur ""); lia.
Qed.

Lemma parse_tokens_index (pid : Z) (n : nat) :
  forall (tokens : list string) (t t' : tokenizer),
    (List.length tokens <= n)%nat ->
    parse_tokens pid tokens t = Some t' ->
    (t_index t' <= t_index t + List.length tokens)%nat.
Proof.
  induction n as [|n IH]; intros tokens t t' Hlen Hparse.
  - destruct tokens; [| cbn in Hlen; lia].
    injection Hparse as <-. lia.
  - destruct tokens as [|token rest].
    + injection Hparse as <-. lia.
    + cbn [List.length] in *. cbn [parse_tokens] in Hparse.
      destruct (String.eqb token "<"); [| destruct (String.eqb token ">")].
      * destruct rest as [|path rest']; [discriminate|].
        destruct (sscanf_s 100 path (t_input_file t)) as [f|]; [|discriminate].
        apply IH in Hparse; cbn [List.length set_input_file t_index] in *; lia.
      * destruct rest as [|path rest']; [discriminate|].
        destruct (sscanf_s 100 path (t_output_file t)) as [f|]; [|discriminate].
        apply IH in Hparse; cbn [List.length set_output_file t_index] in *; lia.
      * destruct (contains_dd token);
          (destruct (sscanf_s 512 token (t_str t)) as [st|]; [|discriminate]);
          apply IH in Hparse; cbn [push_argument t_index] in *; lia.
Qed.

Lemma fgets_line_length (stdin : string) :
  (String.length (user_input_of (fst (fgets 2048 stdin))) <= 2047)%nat.
Proof.
  unfold fgets. destruct stdin as [|c rest]; [cbn; lia|].
  pose proof (fgets_from_length (2048 - 1) (String c rest)) as H.
  destruct (fgets_from (2048 - 1) (String c rest)) as [l r].
  cbn [fst user_input_of] in *. exact H.
Qed.

(** X4.  Whatever the input is, a line read by [fgets(.., 2048, ..)]
    gives at most 1024 arguments, so the stores to
    [command_line[index]], the final NULL included, stay inside the
    2048 entries of the array. *)
Theorem command_line_never_overflows (os : os_reply) (stdin : string)
  (s : shell) (t : tokenizer) :
  tokenized os (user_input_of (fst (fgets 2048 stdin))) s t ->
  (t_index t <= 1024)%nat /\ (S (t_index t) < 2048)%nat.
Proof.
  intros Htok. unfold tokenized in Htok.
  apply (parse_tokens_index _ _ _ _ _ (le_n _)) in Htok.
  cbn [tokenizer_start t_index] in Htok.
  pose proof (strtok_from_count (user_input_of (fst (fgets 2048 stdin))) "")
    as Hcount.
  pose proof (fgets_line_length stdin) as Hlen.
  cbn [String.eqb] in Hcount. unfold strtok_all in Htok. lia.
Qed.

Lemma command_line_never_overflows_witness :
  (t_index (tokenizer_of quiet_os ("a b c d e" ++ nl) (initial_shell ""))
   <= 1024)%nat.
Proof.
  apply (command_line_never_overflows quiet_os ("a b c d e" ++ nl ++ "next")
           (initial_shell "")
           (tokenizer_of quiet_os ("a b c d e" ++ nl) (initial_shell ""))
           eq_refl).
Defined.

(** ** Job Reaper: every finished child, once, in order *)

Lemma reaper_keeps (replies : list (Z * Z)) (s : shell) :
  str (fst (reaper replies s)) = str s
  /\ command_line (fst (reaper replies s)) = command_line s
  /\ background_mode_flag (fst (reaper replies s)) = background_mode_flag s
  /\ foreground_mode_flag (fst (reaper replies s)) = foreground_mode_flag s.
Proof.
  revert s. induction replies as [|[ret status] more IH]; intros s;
    cbn [reaper]; [repeat split|].
  destruct (0 <? ret); [|repeat split].
  specialize (IH (set_status (set_spawnPid s ret) status)).
  destruct (reaper more (set_status (set_spawnPid s ret) status)).
  exact IH.
Qed.

Lemma reap_trace_finished (finished tail : list (Z * Z)) :
  Forall (fun reply => 0 < fst reply) finished ->
  reap_trace (finished ++ tail)
  = (flat_map completion_report finished ++ reap_trace tail)%list.
Proof.
  induction 1 as [|[ret status] finished Hpos _ IH]; [reflexivity|].
  cbn [fst] in Hpos. apply Z.ltb_lt in Hpos.
  cbn [app reap_trace flat_map]. rewrite Hpos, IH. reflexivity.
Qed.

Lemma last_cons (a d : Z) (l : list Z) : List.last (a :: l) d = List.last l a.
Proof.
  revert a d. induction l as [|b l IH]; intros a d; [reflexivity|].
  change (List.last (a :: b :: l) d) with (List.last (b :: l) d).
  now rewrite (IH b d), (IH b a).
Qed.

Lemma reap_status_finished (finished tail : list (Z * Z)) (status : Z) :
  Forall (fun reply => 0 < fst reply) finished ->
  reap_status (finished ++ tail) status
  = reap_status tail (List.last (map snd finished) status).
Proof.
  intros H. revert status.
  induction H as [|[ret st] finished Hpos _ IH]; intros status; [reflexivity|].
  cbn [fst] in Hpos. apply Z.ltb_lt in Hpos.
  cbn [app reap_status map snd]. rewrite Hpos, IH.
  now rewrite last_cons.
Qed.

(** X5.  The Job Reaper reports the children that [waitpid] returns, one
    report each, in the order returned, and stops at the first return
    that is not a pid: later replies are never asked for.  It leaves
    the status of the last child reported in [child_exit_status] and
    touches nothing else but [spawnPid]. *)
Theorem reaper_reports_each_once (finished later : list (Z * Z))
  (ret status : Z) (s : shell) :
  Forall (fun reply => 0 < fst reply) finished ->
  ret <= 0 ->
  snd (reaper (finished ++ (ret, status) :: later) s)
  = (flat_map completion_report finished ++ [WaitAny ret])%list
  /\ snd (reaper finished s)
     = (flat_map completion_report finished ++ [WaitAny (-1)])%list
  /\ child_exit_status (fst (reaper (finished ++ (ret, status) :: later) s))
     = List.last (map snd finished) (child_exit_status s)
  /\ str (fst (reaper (finished ++ (ret, status) :: later) s)) = str s
  /\ command_line (fst (reaper (finished ++ (ret, status) :: later) s))
     = command_line s
  /\ background_mode_flag (fst (reaper (finished ++ (ret, status) :: later) s))
     = background_mode_flag s
  /\ foreground_mode_flag (fst (reaper (finished ++ (ret, status) :: later) s))
     = foreground_mode_flag s.
Proof.
  intros Hpos Hret.
  assert (Hstop : (0 <? ret) = false) by lia.
  split; [| split; [| split]].
  - rewrite reaper_trace, reap_trace_finished by exact Hpos.
    cbn [reap_trace]. now rewrite Hstop.
  - rewrite reaper_trace. rewrite <- (app_nil_r finished) at 1.
    now rewrite reap_trace_finished by exact Hpos.
  - pose proof (reaper_state (finished ++ (ret, status) :: later) s) as H.
    unfold ShellState in H. injection H as _ H. rewrite H.
    rewrite reap_status_finished by exact Hpos.
    cbn [reap_status]. now rewrite Hstop.
  - apply reaper_keeps.
Qed.

Lemma reaper_reports_each_once_witness :
  snd (reaper [(77, status_exited 0); (78, status_signaled 15 false);
               (0, 0); (79, status_exited 1)] (initial_shell ""))
  = [WaitAny 77; Print "background pid 77 is done: ";
     Print ("exit value 0" ++ nl);
     WaitAny 78; Print "background pid 78 is done: ";
     Print ("terminated by signal 15" ++ nl);
     WaitAny 0].
Proof.
  assert (Hpos : Forall (fun reply : Z * Z => 0 < fst reply)
                   [(77, status_exited 0); (78, status_signaled 15 false)])
    by (repeat constructor).
  assert (Hret : 0 <= 0) by lia.
  exact (proj1 (reaper_reports_each_once
                  [(77, status_exited 0); (78, status_signaled 15 false)]
                  [(79, status_exited 1)] 0 0 (initial_shell "") Hpos Hret)).
Defined.

(** ** Signal handlers *)

(** X6.  Both handlers write their whole message and the NUL byte after
    it (the lengths 51, 31 and 15 count one byte too many).
    [handle_SIGTSTP] leaves [foreground_mode_flag] 0 or 1 from any value
    and from then on flips it at every delivery; it changes nothing
    else. *)
Theorem signal_handlers_write_and_toggle :
  (forall flag : Z,
      snd (handle_SIGTSTP flag)
      = (if flag =? 0 then entering_message else exiting_message) ++ NUL)
  /\ (forall signo : Z, handle_SIGINT signo = "Caught SIGINT" ++ nl ++ NUL)
  /\ (forall s : shell,
        (foreground_mode_flag (fst (deliver_SIGTSTP s)) = 0
         \/ foreground_mode_flag (fst (deliver_SIGTSTP s)) = 1)
        /\ foreground_mode_flag
             (fst (deliver_SIGTSTP (fst (deliver_SIGTSTP s))))
           = 1 - foreground_mode_flag (fst (deliver_SIGTSTP s))
        /\ set_foreground (fst (deliver_SIGTSTP s)) (foreground_mode_flag s)
           = s).
Proof.
  split; [| split].
  - intros flag. unfold handle_SIGTSTP. now destruct (flag =? 0).
  - reflexivity.
  - intros [st cl ces bg sp fg]. unfold deliver_SIGTSTP, handle_SIGTSTP.
    cbn [foreground_mode_flag]. destruct (fg =? 0); cbn; auto.
Qed.

(** ** The built-ins on any argument list *)

Lemma arguments_split (cmd : string) (args : list string) :
  exists front last,
    cmd :: args = (front ++ [last])%list
    /\ hd last front = cmd
    /\ List.last (cmd :: args) "" = last
    /\ List.length front = List.length args.
Proof.
  destruct (@exists_last _ (cmd :: args)) as (front & last & E);
    [discriminate|].
  exists front, last. repeat split.
  - exact E.
  - destruct front; now injection E.
  - rewrite E. apply last_last.
  - apply (f_equal (@List.length string)) in E.
    rewrite length_app in E. cbn [List.length] in E. lia.
Qed.

(** X7.  [cd] alone goes to [$HOME]; [cd] with arguments goes to the
    first one and ignores the others.  Nothing is printed, also when
    [chdir] fails (its result is not looked at), no child is forked and
    the last status is only changed by the Job Reaper that follows. *)
Theorem cd_uses_first_argument (os : os_reply) (s : shell) (line : string)
  (t : tokenizer) (args : list string) (stale : list slot) :
  tokenized os line s t ->
  first_char_is "010" line = false ->
  arguments t ("cd" :: args) stale ->
  List.last ("cd" :: args) "" <> "&" ->
  effects (iteration os (Some line) s)
  = (Continues (foreground_mode_flag s,
                reap_status (os_reap os) (child_exit_status s)),
     prompt
     :: match args with
        | [] => ChdirHome
        | dir :: _ => Chdir (Ptr dir)
        end
     :: reap_trace (os_reap os)).
Proof.
  intros Htok Hblank Hargs Hlast.
  destruct (arguments_split "cd" args) as (front & last & E & Hhd & Hl & Hlen).
  rewrite Hl in Hlast. rewrite E in Hargs.
  rewrite (iteration_tokenized _ _ _ _ Htok), effects_before.
  rewrite (execute_unmarked os s line t Hblank front last stale Hargs)
    by (rewrite ?Hhd; reflexivity || exact Hlast).
  rewrite <- E, Hlen. cbn [map app].
  rewrite (dispatch_cd_effects os _ (map Ptr args ++ Null :: tl stale))
    by reflexivity.
  cbn [fst snd app]. f_equal. f_equal. f_equal.
  destruct args as [|dir args]; [reflexivity|].
  cbn [List.length map app load nth].
  assert (H : (Z.of_nat (S (S (S (List.length args)))) - 1 =? 1) = false)
    by (apply Z.eqb_neq; lia).
  now rewrite H.
Qed.

Lemma cd_uses_first_argument_witness :
  effects (iteration quiet_os (Some ("cd /tmp /var" ++ nl)) (initial_shell ""))
  = (Continues (0, -5), [prompt; Chdir (Ptr "/tmp"); WaitAny (-1)]).
Proof.
  assert (Hlast : List.last ["cd"; "/tmp"; "/var"] "" <> "&") by discriminate.
  exact (cd_uses_first_argument quiet_os (initial_shell "")
           ("cd /tmp /var" ++ nl)
           (tokenizer_of quiet_os ("cd /tmp /var" ++ nl) (initial_shell ""))
           ["/tmp"; "/var"] [] eq_refl eq_refl (conj eq_refl eq_refl) Hlast).
Defined.

(** X8.  A line whose first argument is [exit] ends the shell at once
    with status 0, whatever follows on the line: arguments are not
    looked at, nothing is printed and the Job Reaper is not run. *)
Theorem exit_ignores_arguments (os : os_reply) (s : shell) (line : string)
  (t : tokenizer) (args : list string) (stale : list slot) :
  tokenized os line s t ->
  first_char_is "010" line = false ->
  arguments t ("exit" :: args) stale ->
  iteration os (Some line) s = Exit 0 [prompt].
Proof.
  intros Htok Hblank Hargs.
  rewrite (iteration_tokenized _ _ _ _ Htok).
  destruct (execute_dispatches os s line t "exit" args stale
              Hblank Hargs eq_refl) as (cl & bg & index & ->);
    [discriminate|].
  now rewrite (dispatch_exit os _ cl) by reflexivity.
Qed.

Lemma exit_ignores_arguments_witness :
  iteration quiet_os (Some ("exit 5 > log" ++ nl)) (initial_shell "")
  = Exit 0 [prompt].
Proof.
  exact (exit_ignores_arguments quiet_os (initial_shell "")
           ("exit 5 > log" ++ nl)
           (tokenizer_of quiet_os ("exit 5 > log" ++ nl) (initial_shell ""))
           ["5"] [] eq_refl eq_refl (conj eq_refl eq_refl)).
Defined.

(** ** What [status] and the completion report print *)

Lemma WEXITSTATUS_exited_mod (code : Z) :
  WEXITSTATUS (status_exited code) = code mod 256.
Proof.
  unfold WEXITSTATUS, status_exited.
  change 65280 with (Z.shiftl 255 8).
  rewrite <- Z.shiftl_land, <- Z.land_assoc, Z.land_diag.
  rewrite Z.shiftr_shiftl_l by lia. rewrite Z.shiftl_0_r.
  change 255 with (Z.ones 8). now rewrite Z.land_ones by lia.
Qed.

Lemma lor_core_flag (sig : Z) : 0 <= sig < 128 -> Z.lor sig 128 = sig + 128.
Proof.
  intros H.
  assert (Hland : Z.land sig 128 = 0).
  { apply Z.bits_inj'. intros n Hn. rewrite Z.land_spec, Z.bits_0.
    change 128 with (2 ^ 7). rewrite Z.pow2_bits_eqb by lia.
    destruct (Z.eqb_spec 7 n) as [<- | _]; [| apply andb_false_r].
    rewrite andb_true_r.
    destruct (Z.eq_dec sig 0) as [-> | Hnz]; [reflexivity|].
    apply Z.bits_above_log2; [lia|].
    apply Z.log2_lt_pow2; [lia|]. change (2 ^ 7) with 128. lia. }
  rewrite <- Z.lxor_lor by exact Hland.
  symmetry. now apply Z.add_nocarry_lxor.
Qed.

(** X9.  The text printed for a wait status: after [exit(code)] it is
    the exit value [code mod 256]; after a kill by signal [sig] it is
    the raw status word, which is [sig] without a core dump and
    [sig + 128] with one. *)
Theorem status_text_of_wait_status :
  (forall code : Z,
      status_text (status_exited code)
      = "exit value " ++ sprintf_d (code mod 256) ++ nl)
  /\ (forall (sig : Z) (core : bool),
        0 < sig < 128 ->
        status_text (status_signaled sig core)
        = "terminated by signal "
          ++ sprintf_d (if core then sig + 128 else sig) ++ nl).
Proof.
  split.
  - intros code. unfold status_text.
    now rewrite WIFEXITED_exited, WEXITSTATUS_exited_mod.
  - intros sig core H. unfold status_text, status_signaled, WIFEXITED.
    rewrite WTERMSIG_mod. destruct core.
    + rewrite lor_core_flag by lia.
      assert (Hm : (sig + 128) mod 128 = sig).
      { replace (sig + 128) with (sig + 1 * 128) by lia.
        rewrite Z.mod_add by lia. apply Z.mod_small. lia. }
      rewrite Hm.
      destruct (Z.eqb_spec sig 0); [lia | reflexivity].
    + rewrite Z.lor_0_r, Z.mod_small by lia.
      destruct (Z.eqb_spec sig 0); [lia | reflexivity].
Qed.

Lemma status_text_of_wait_status_witness :
  status_text (status_signaled 11 true) = "terminated by signal 139" ++ nl.
Proof.
  assert (H : 0 < 11 < 128) by lia.
  exact (proj2 status_text_of_wait_status 11 true H).
Defined.

(** ** How an iteration can end *)

Lemma before_ends_well (os : os_reply) (fg : Z) (pre : list event)
  (o : outcome) :
  ends_well os fg o -> ends_well os fg (before pre o).
Proof. now destruct o. Qed.

Lemma then_reap_ends_well (os : os_reply) (s : shell) (tr : list event) :
  ends_well os (foreground_mode_flag s) (then_reap os s tr).
Proof.
  unfold then_reap.
  pose proof (reaper_keeps (os_reap os) s) as (_ & _ & _ & H).
  destruct (reaper (os_reap os) s). exact H.
Qed.

Lemma child_ends_well (os : os_reply) (s : shell) (fg : Z)
  (input_file output_file : string) :
  os_fork os = 0 ->
  ends_well os fg (child os s input_file output_file).
Proof.
  intros Hfork. unfold child.
  destruct (String.eqb input_file ""), (String.eqb output_file ""),
    (os_open_in os), (os_dup2_in os), (os_open_out os), (os_dup2_out os),
    (os_execvp os), (load 0 (command_line s));
    cbn [negb ends_well]; auto.
Qed.

Lemma launch_ends_well (os : os_reply) (s : shell)
  (input_file output_file : string) :
  ends_well os (foreground_mode_flag s) (launch os s input_file output_file).
Proof.
  unfold launch. apply before_ends_well.
  destruct (Z.eqb_spec (os_fork os) (-1)) as [Hfail | _];
    [cbn; auto|].
  destruct (Z.eqb_spec (os_fork os) 0) as [Hchild | _].
  - now apply child_ends_well.
  - unfold parent. destruct (waits_in_foreground _).
    + destruct (os_wait os) as [status|].
      * exact (then_reap_ends_well os
                 (set_status (set_spawnPid s (os_fork os)) status) _).
      * exact (then_reap_ends_well os (set_spawnPid s (os_fork os)) _).
    + destruct (_ =? 1);
        exact (then_reap_ends_well os (set_spawnPid s (os_fork os)) _).
Qed.

Lemma dispatch_ends_well (os : os_reply) (s : shell) (fg : Z) (index : nat)
  (input_file output_file : string) :
  foreground_mode_flag s = fg ->
  ends_well os fg (dispatch os s index input_file output_file).
Proof.
  intros <-. unfold dispatch. destruct (load 0 (command_line s)) as [| | cmd];
    [exact I | exact I |].
  destruct (String.eqb cmd "exit"); [cbn; auto|].
  destruct (String.eqb cmd "cd"); [apply then_reap_ends_well|].
  destruct (String.eqb cmd "status"); [apply then_reap_ends_well|].
  apply launch_ends_well.
Qed.

Lemma iteration_ends_well (os : os_reply) (line : option string) (s : shell) :
  ends_well os (foreground_mode_flag s) (iteration os line s).
Proof.
  unfold iteration. apply before_ends_well.
  destruct (parse_tokens _ _ _) as [t|]; [|exact I].
  unfold execute.
  destruct (load 0 _) as [| | first]; [exact I | reflexivity |].
  destruct (first_char_is "#" first); [reflexivity|].
  destruct (t_index t) as [|k]; [exact I|].
  destruct (load k _) as [| | last]; [exact I | exact I |].
  destruct (String.eqb last "&"); now apply dispatch_ends_well.
Qed.

(** X10.  In the shell process itself (the side of [fork] that did not
    get 0): an iteration that leaves through [exit] or [_exit] does so
    with status 0, or with status 1 right after a failed [fork], and no
    iteration makes the shell another program.  When the tokenizer ends
    normally and leaves at least one argument, other than the lone [&],
    the iteration does not run into undefined behaviour either: it is
    [exit] and leaves with status 0, or it is an external command whose
    [fork] failed and leaves with status 1, or it returns to the
    prompt.  (The lone [&] and a line without arguments do crash.) *)
Theorem shell_leaves_only_by_exit_or_failed_fork :
  (forall (os : os_reply) (line : option string) (s : shell),
      os_fork os <> 0 ->
      (forall code tr,
          iteration os line s = Exit code tr ->
          code = 0 \/ (code = 1 /\ os_fork os = -1))
      /\ (forall img tr, iteration os line s <> Exec img tr))
  /\ (forall (os : os_reply) (s : shell) (line : string) (t : tokenizer)
             (cmd : string) (args : list string) (stale : list slot),
        tokenized os line s t ->
        first_char_is "010" line = false ->
        arguments t (cmd :: args) stale ->
        cmd :: args <> ["&"] ->
        os_fork os <> 0 ->
        (cmd = "exit" /\ iteration os (Some line) s = Exit 0 [prompt])
        \/ (first_char_is "#" cmd = false /\ is_builtin cmd = false
            /\ os_fork os = -1
            /\ iteration os (Some line) s
               = Exit 1 [prompt; Fork (-1); Perror ("fork() failed!" ++ nl)])
        \/ (cmd <> "exit"
            /\ (is_builtin cmd = true \/ first_char_is "#" cmd = true
                \/ os_fork os <> -1)
            /\ exists s' tr, iteration os (Some line) s = Continue s' tr)).
Proof.
  split.
  - intros os line s Hparent.
    pose proof (iteration_ends_well os line s) as H.
    split.
    + intros code tr E. rewrite E in H. cbn in H.
      destruct H as [H | [H [H' | H']]]; auto. contradiction.
    + intros img tr E. rewrite E in H. cbn in H. contradiction.
  - intros os s line t cmd args stale Htok Hblank Hargs Hlone Hparent.
    rewrite (iteration_tokenized _ _ _ _ Htok).
    destruct (first_char_is "#" cmd) eqn:Hhash.
    { right. right. split; [intros ->; discriminate|]. split; [auto|].
      rewrite (execute_noop os s line t).
      - eexists _, _. reflexivity.
      - destruct Hargs as [_ Hc]. rewrite Hblank, Hc. right. exists cmd.
        now split. }
    destruct (execute_dispatches os s line t cmd args stale
                Hblank Hargs Hhash Hlone) as (cl & bg & index & ->).
    destruct (String.eqb_spec cmd "exit") as [-> | Hexit].
    { left. split; [reflexivity|].
      now rewrite (dispatch_exit os _ cl) by reflexivity. }
    destruct (is_builtin cmd) eqn:Hb.
    { right. right. split; [exact Hexit|]. split; [auto|].
      destruct (is_builtin_cases cmd Hb) as [-> | [-> | ->]];
        [congruence | |];
        unfold dispatch; cbn [dispatched set_background command_line load nth
                                String.eqb Ascii.eqb Bool.eqb];
        rewrite then_reap_eq; eexists _, _; reflexivity. }
    rewrite (dispatch_external os _ cmd cl) by (reflexivity || exact Hb).
    unfold launch.
    destruct (Z.eqb_spec (os_fork os) (-1)) as [Hfail | Hok].
    { right. left. rewrite Hfail. now repeat split. }
    right. right. split; [exact Hexit|]. split; [auto|].
    destruct (Z.eqb_spec (os_fork os) 0) as [Hchild | _]; [contradiction|].
    unfold parent. destruct (waits_in_foreground _);
      [| destruct (_ =? 1)]; rewrite then_reap_eq; eexists _, _; reflexivity.
Qed.

Lemma shell_leaves_only_by_exit_or_failed_fork_witness :
  ("ls" = "exit"
   /\ iteration (with_fork quiet_os (-1)) (Some ("ls -la" ++ nl))
        (initial_shell "")
      = Exit 0 [prompt])
  \/ (first_char_is "#" "ls" = false /\ is_builtin "ls" = false
      /\ os_fork (with_fork quiet_os (-1)) = -1
      /\ iteration (with_fork quiet_os (-1)) (Some ("ls -la" ++ nl))
           (initial_shell "")
         = Exit 1 [prompt; Fork (-1); Perror ("fork() failed!" ++ nl)])
  \/ ("ls" <> "exit"
      /\ (is_builtin "ls" = true \/ first_char_is "#" "ls" = true
          \/ os_fork (with_fork quiet_os (-1)) <> -1)
      /\ exists s' tr,
          iteration (with_fork quiet_os (-1)) (Some ("ls -la" ++ nl))
            (initial_shell "")
          = Continue s' tr).
Proof.
  assert (Hlone : "ls" :: ["-la"] <> ["&"]) by discriminate.
  assert (Hparent : os_fork (with_fork quiet_os (-1)) <> 0) by discriminate.
  exact (proj2 shell_leaves_only_by_exit_or_failed_fork
           (with_fork quiet_os (-1)) (initial_shell "") ("ls -la" ++ nl)
           (tokenizer_of (with_fork quiet_os (-1)) ("ls -la" ++ nl)
              (initial_shell ""))
           "ls" ["-la"] [] eq_refl eq_refl (conj eq_refl eq_refl)
           Hlone Hparent).
Defined.

Lemma run_ends_well (replies : list os_reply) :
  forall (stdin : string) (s s' : shell) (tr : list event),
    run replies stdin s = Continue s' tr ->
    foreground_mode_flag s' = foreground_mode_flag s.
Proof.
  induction replies as [|os more IH]; intros stdin s s' tr Hrun.
  - now injection Hrun as <- _.
  - cbn [run] in Hrun. destruct (fgets 2048 stdin) as [line rest].
    pose proof (iteration_ends_well os line s) as H.
    destruct (iteration os line s) as [s1 tr1 | | |]; try discriminate.
    cbn in H. destruct (run more rest s1) as [s2 tr2 | | |] eqn:E;
      try discriminate.
    injection Hrun as <- _. rewrite <- H. exact (IH rest s1 s2 tr2 E).
Qed.

(** X11.  No command line changes [foreground_mode_flag]: after one
    iteration, and after any number of them, it is what it was.  Only
    the SIGTSTP handler writes it. *)
Theorem iteration_keeps_foreground_flag :
  (forall (os : os_reply) (line : option string) (s s' : shell)
          (tr : list event),
      iteration os line s = Continue s' tr ->
      foreground_mode_flag s' = foreground_mode_flag s)
  /\ (forall (replies : list os_reply) (stdin : string) (s s' : shell)
             (tr : list event),
        run replies stdin s = Continue s' tr ->
        foreground_mode_flag s' = foreground_mode_flag s).
Proof.
  split; [| exact run_ends_well].
  intros os line s s' tr E.
  pose proof (iteration_ends_well os line s) as H. now rewrite E in H.
Qed.

Lemma iteration_keeps_foreground_flag_witness :
  foreground_mode_flag
    (match run [quiet_os; quiet_os]
             ("sleep 5 &" ++ nl ++ "status" ++ nl)
             (fst (deliver_SIGTSTP (initial_shell ""))) with
     | Continue s' _ => s'
     | _ => initial_shell ""
     end)
  = 1.
Proof.
  exact (proj2 iteration_keeps_foreground_flag [quiet_os; quiet_os]
           ("sleep 5 &" ++ nl ++ "status" ++ nl)
           (fst (deliver_SIGTSTP (initial_shell ""))) _ _ eq_refl).
Defined.

(** ** The child *)

(** X12.  The child never comes back to the prompt: it becomes the
    program or leaves with status 1.  When the input file cannot be
    opened it says so and leaves before the output file is opened, so
    that file is neither created nor truncated. *)
Theorem child_never_returns :
  (forall (os : os_reply) (s : shell) (input_file output_file : string),
      match child os s input_file output_file with
      | Continue _ _ => False
      | Exit code _ => code = 1
      | Exec img _ =>
          os_execvp os = true /\ img_argv img = argv_of (command_line s)
      | Crash _ => os_execvp os = false
      end)
  /\ (forall (os : os_reply) (s : shell) (input_file output_file : string),
        input_file <> "" ->
        os_open_in os = false ->
        child os s input_file output_file
        = Exit 1
            ((if background_mode_flag s =? 0
              then [Sigaction_SIGINT SIG_DFL] else [])
             ++ [OpenRead input_file;
                 Print (input_file ++ ": no such file or directory" ++ nl)])).
Proof.
  split.
  - intros os s input_file output_file. unfold child.
    destruct (String.eqb input_file ""), (String.eqb output_file ""),
      (os_open_in os), (os_dup2_in os), (os_open_out os), (os_dup2_out os),
      (os_execvp os) eqn:Hex, (load 0 (command_line s));
      cbn [negb]; auto.
  - intros os s input_file output_file Hin Hopen. unfold child.
    apply String.eqb_neq in Hin. now rewrite Hin, Hopen.
Qed.

Lemma child_never_returns_witness :
  child (with_fork quiet_os 0) (initial_shell "") "" "out.txt"
  <> Continue (initial_shell "") []
  /\ child
       {| os_getpid := 1234; os_fork := 0; os_wait := None; os_reap := [];
          os_open_in := false; os_dup2_in := true;
          os_open_out := true; os_dup2_out := true; os_execvp := true |}
       (initial_shell "") "missing" "out.txt"
     = Exit 1 [Sigaction_SIGINT SIG_DFL; OpenRead "missing";
               Print ("missing: no such file or directory" ++ nl)].
Proof.
  split; [discriminate|].
  assert (Hin : "missing" <> "") by discriminate.
  exact (proj2 child_never_returns
           {| os_getpid := 1234; os_fork := 0; os_wait := None; os_reap := [];
              os_open_in := false; os_dup2_in := true;
              os_open_out := true; os_dup2_out := true; os_execvp := true |}
           (initial_shell "") "missing" "out.txt" Hin eq_refl).
Defined.

(** ** Foreground commands *)

Lemma unmarked_parent_effects (os : os_reply) (s : shell) (line : string)
  (t : tokenizer) (args : list string) (last : string) (stale : list slot) :
  tokenized os line s t ->
  first_char_is "010" line = false ->
  arguments t (args ++ [last]) stale ->
  first_char_is "#" (hd last args) = false ->
  is_builtin (hd last args) = false ->
  last <> "&" ->
  0 < os_fork os ->
  effects (iteration os (Some line) s)
  = (Continues (foreground_mode_flag s,
                reap_status (os_reap os)
                  (match os_wait os with
                   | Some status => status
                   | None => child_exit_status s
                   end)),
     prompt :: Fork (os_fork os) :: WaitFor (os_fork os)
     :: reap_trace (os_reap os)).
Proof.
  intros Htok Hblank Hargs Hhash Hext Hlast Hpid.
  rewrite (iteration_tokenized _ _ _ _ Htok), effects_before.
  rewrite (execute_unmarked os s line t Hblank args last stale Hargs Hhash Hlast).
  assert (Hcl : exists cl, (map Ptr (args ++ [last]) ++ Null :: tl stale)%list
                           = Ptr (hd last args) :: cl)
    by (destruct args; eexists; reflexivity).
  destruct Hcl as [cl Hcl].
  rewrite (dispatch_external os _ (hd last args) cl)
    by (exact Hcl || exact Hext).
  rewrite launch_parent_effects by exact Hpid.
  destruct (dispatched_fields s t
              (map Ptr (args ++ [last]) ++ Null :: tl stale) 0)
    as (_ & -> & -> & ->).
  cbn [Z.eqb]. now rewrite orb_true_r.
Qed.

(** X13.  For a line that names an external program and does not end in
    [&], in either mode, the parent blocks in [waitpid] for exactly the
    child it forked, stores the status [waitpid] gives (and keeps the
    old one when [waitpid] stores nothing), and then runs the Job
    Reaper. *)
Theorem foreground_command_is_waited_for (os : os_reply) (s : shell)
  (line : string) (t : tokenizer) (args : list string) (last : string)
  (stale : list slot) :
  tokenized os line s t ->
  first_char_is "010" line = false ->
  arguments t (args ++ [last]) stale ->
  first_char_is "#" (hd last args) = false ->
  is_builtin (hd last args) = false ->
  last <> "&" ->
  0 < os_fork os ->
  effects (iteration os (Some line) s)
  = (Continues (foreground_mode_flag s,
                reap_status (os_reap os)
                  (match os_wait os with
                   | Some status => status
                   | None => child_exit_status s
                   end)),
     prompt :: Fork (os_fork os) :: WaitFor (os_fork os)
     :: reap_trace (os_reap os)).
Proof. exact (unmarked_parent_effects os s line t args last stale). Qed.

Lemma foreground_command_is_waited_for_witness :
  effects (iteration (with_wait quiet_os None) (Some ("ls -la" ++ nl))
             (initial_shell ""))
  = (Continues (0, -5), [prompt; Fork 500; WaitFor 500; WaitAny (-1)]).
Proof.
  assert (Hlast : "-la" <> "&") by discriminate.
  assert (Hpid : 0 < os_fork (with_wait quiet_os None)) by reflexivity.
  exact (foreground_command_is_waited_for (with_wait quiet_os None)
           (initial_shell "") ("ls -la" ++ nl)
           (tokenizer_of (with_wait quiet_os None) ("ls -la" ++ nl)
              (initial_shell ""))
           ["ls"] "-la" [] eq_refl eq_refl (conj eq_refl eq_refl)
           eq_refl eq_refl Hlast Hpid).
Defined.

(** [status] from any state: it prints the text of the current
    [child_exit_status]. *)
Lemma status_line_effects (os : os_reply) (s : shell) :
  effects (iteration os (Some ("status" ++ nl)) s)
  = (Continues (foreground_mode_flag s,
                reap_status (os_reap os) (child_exit_status s)),
     prompt :: Print (status_text (child_exit_status s))
     :: reap_trace (os_reap os)).
Proof.
  assert (Htok : tokenized os ("status" ++ nl) s
                   (push_argument (tokenizer_start s) "status" "status"))
    by reflexivity.
  assert (Hargs : arguments (push_argument (tokenizer_start s) "status" "status")
                    ([] ++ ["status"]) (tl (command_line s)))
    by (apply push_argument_arguments; split; reflexivity).
  assert (Hlast : "status" <> "&") by discriminate.
  rewrite (iteration_tokenized _ _ _ _ Htok), effects_before.
  rewrite (execute_unmarked os s ("status" ++ nl) _ eq_refl [] "status"
             (tl (command_line s)) Hargs eq_refl Hlast).
  cbn [map app].
  now rewrite (dispatch_status_effects os _ (Null :: tl (tl (command_line s))))
    by reflexivity.
Qed.

(** X14.  After a foreground command whose child called [exit(code)],
    and with no background child finishing meanwhile, the next [status]
    prints that exit value. *)
Theorem status_after_foreground_command (os os' : os_reply) (s : shell)
  (line : string) (t : tokenizer) (args : list string) (last : string)
  (stale : list slot) (code : Z) :
  tokenized os line s t ->
  first_char_is "010" line = false ->
  arguments t (args ++ [last]) stale ->
  first_char_is "#" (hd last args) = false ->
  is_builtin (hd last args) = false ->
  last <> "&" ->
  0 < os_fork os ->
  os_wait os = Some (status_exited code) ->
  os_reap os = [] ->
  exists s',
    iteration os (Some line) s
    = Continue s' [prompt; Fork (os_fork os); WaitFor (os_fork os); WaitAny (-1)]
    /\ trace (iteration os' (Some ("status" ++ nl)) s')
       = prompt :: Print ("exit value " ++ sprintf_d (code mod 256) ++ nl)
         :: reap_trace (os_reap os').
Proof.
  intros Htok Hblank Hargs Hhash Hext Hlast Hpid Hwait Hreap.
  pose proof (unmarked_parent_effects os s line t args last stale
                Htok Hblank Hargs Hhash Hext Hlast Hpid) as E.
  rewrite Hwait, Hreap in E. cbn [reap_status reap_trace] in E.
  destruct (iteration os (Some line) s) as [s' tr | | |];
    try discriminate.
  unfold effects in E. cbn [ending_of trace ShellState] in E.
  injection E as Hfg Hces Htr. subst tr.
  exists s'. split; [reflexivity|].
  change (trace (iteration os' (Some ("status" ++ nl)) s'))
    with (snd (effects (iteration os' (Some ("status" ++ nl)) s'))).
  rewrite status_line_effects. cbn [snd]. rewrite Hces.
  unfold status_text. now rewrite WIFEXITED_exited, WEXITSTATUS_exited_mod.
Qed.

Lemma status_after_foreground_command_witness :
  exists s',
    iteration (with_wait quiet_os (Some (status_exited 3)))
      (Some ("grep x y" ++ nl)) (initial_shell "")
    = Continue s' [prompt; Fork 500; WaitFor 500; WaitAny (-1)]
    /\ trace (iteration quiet_os (Some ("status" ++ nl)) s')
       = [prompt; Print ("exit value 3" ++ nl); WaitAny (-1)].
Proof.
  assert (Hlast : "y" <> "&") by discriminate.
  assert (Hpid : 0 < os_fork (with_wait quiet_os (Some (status_exited 3))))
    by reflexivity.
  exact (status_after_foreground_command
           (with_wait quiet_os (Some (status_exited 3))) quiet_os
           (initial_shell "") ("grep x y" ++ nl)
           (tokenizer_of (with_wait quiet_os (Some (status_exited 3)))
              ("grep x y" ++ nl) (initial_shell ""))
           ["grep"; "x"] "y" [] 3
           eq_refl eq_refl (conj eq_refl eq_refl) eq_refl eq_refl Hlast Hpid
           eq_refl eq_refl).
Defined.

Lemma unmarked_child_restores_sigint_witness :
  exists tr,
    iteration (with_fork quiet_os 0) (Some ("wc -l" ++ nl))
      (fst (deliver_SIGTSTP (initial_shell "")))
    = Exec {| img_argv := ["wc"; "-l"]; img_sigint := SIG_DFL;
              img_stdin := None; img_stdout := None |}
        (prompt :: Fork 0 :: Sigaction_SIGINT SIG_DFL :: tr).
Proof.
  assert (Hlast : "-l" <> "&") by discriminate.
  exact (unmarked_child_restores_sigint (with_fork quiet_os 0)
           (fst (deliver_SIGTSTP (initial_shell ""))) ("wc -l" ++ nl)
           (tokenizer_of (with_fork quiet_os 0) ("wc -l" ++ nl)
              (fst (deliver_SIGTSTP (initial_shell ""))))
           ["wc"] "-l" [] eq_refl eq_refl (conj eq_refl eq_refl)
           eq_refl eq_refl Hlast eq_refl eq_refl eq_refl eq_refl eq_refl
           eq_refl).
Defined.

Lemma tokenized_arguments_witness :
  exists args stale,
    arguments (tokenizer_of quiet_os ("wc -l < in > out &" ++ nl)
                 (initial_shell ""))
      args stale.
Proof.
  exact (tokenized_arguments quiet_os ("wc -l < in > out &" ++ nl)
           (initial_shell "")
           (tokenizer_of quiet_os ("wc -l < in > out &" ++ nl)
              (initial_shell ""))
           eq_refl).
Defined.

(** ** The tokenizer on words and redirections *)

Lemma contains_dd_before_newline (w fin : string) :
  ends_token fin -> contains_dd (w ++ fin) = contains_dd w.
Proof.
  intros [-> | ->]; [now rewrite append_empty_r|].
  induction w as [|c w IH]; [reflexivity|].
  change (String c w ++ nl) with (String c (w ++ nl)).
  cbn [contains_dd]. rewrite IH. f_equal.
  destruct w as [|d w]; cbn [append starts_dd nl]; [|reflexivity].
  apply andb_false_r.
Qed.

Lemma parse_tokens_word (pid : Z) (w fin : string) (rest : list string)
  (t : tokenizer) :
  item_ok (Word w fin) ->
  parse_tokens pid ((w ++ fin) :: rest) t
  = parse_tokens pid rest
      (push_argument t w (replace_double_dollarsigns w pid)).
Proof.
  intros (Hw & Hne & Hlen & Hfin & Hlt & Hgt).
  destruct (contains_dd w) eqn:Hdd.
  - now apply parse_tokens_expands.
  - cbn [parse_tokens].
    apply String.eqb_neq in Hlt, Hgt. rewrite Hlt, Hgt.
    rewrite contains_dd_before_newline, Hdd by exact Hfin.
    rewrite sscanf_s_word by assumption.
    now rewrite replace_no_placeholder by exact Hdd.
Qed.

Lemma skipn_tl (n : nat) (l : list slot) : skipn n (tl l) = skipn (S n) l.
Proof. destruct l; [now rewrite skipn_nil | reflexivity]. Qed.

(** X16.  On words and redirections the tokenizer loop ends normally
    and [command_line[0 .. index - 1]] holds exactly the words, in
    order, each with its placeholders expanded, [index] being their
    number: the operators [<] and [>] and their paths take no entry.
    [input_file] and [output_file] hold the last path given for each,
    as written (a placeholder in a path is kept). *)
Theorem tokenizer_stores_words_only (pid : Z) (items : list item) :
  forall (t : tokenizer) (args : list string) (stale : list slot),
    Forall item_ok items ->
    arguments t args stale ->
    exists t',
      parse_tokens pid (flat_map item_tokens items) t = Some t'
      /\ arguments t' (args ++ flat_map (item_arguments pid) items)
           (skipn (List.length (flat_map (item_arguments pid) items)) stale)
      /\ t_input_file t' = input_path items (t_input_file t)
      /\ t_output_file t' = output_path items (t_output_file t).
Proof.
  induction items as [|i items IH]; intros t args stale Hok Hargs.
  - exists t. cbn [flat_map List.length skipn app]. rewrite app_nil_r.
    split; [reflexivity | split; [exact Hargs | split; reflexivity]].
  - inversion Hok as [|? ? Hi Hrest]; subst.
    destruct i as [w fin | path fin | path fin].
    + cbn [flat_map item_tokens item_arguments app input_path output_path].
      rewrite parse_tokens_word by exact Hi.
      destruct (IH _ _ _ Hrest
                  (push_argument_arguments t w
                     (replace_double_dollarsigns w pid) args stale Hargs))
        as (t' & Hparse & Ha & Hin & Hout).
      exists t'. rewrite <- app_assoc in Ha. cbn [app] in Ha.
      rewrite skipn_tl in Ha. cbn [List.length].
      split; [exact Hparse | split; [exact Ha | split; [exact Hin | exact Hout]]].
    + destruct Hi as (Hp & Hne & Hlen & Hfin).
      cbn [flat_map item_tokens item_arguments app input_path output_path
           parse_tokens String.eqb Ascii.eqb Bool.eqb].
      rewrite sscanf_s_word by assumption.
      destruct (IH (set_input_file t path) args stale Hrest Hargs)
        as (t' & Hparse & Ha & Hin & Hout).
      exists t'.
      split; [exact Hparse | split; [exact Ha | split; [exact Hin | exact Hout]]].
    + destruct Hi as (Hp & Hne & Hlen & Hfin).
      cbn [flat_map item_tokens item_arguments app input_path output_path
           parse_tokens String.eqb Ascii.eqb Bool.eqb].
      rewrite sscanf_s_word by assumption.
      destruct (IH (set_output_file t path) args stale Hrest Hargs)
        as (t' & Hparse & Ha & Hin & Hout).
      exists t'.
      split; [exact Hparse | split; [exact Ha | split; [exact Hin | exact Hout]]].
Qed.

Lemma tokenizer_stores_words_only_witness :
  exists t',
    parse_tokens 1234 (strtok_all ("wc -l$$ < in$$ > out &" ++ nl))
      (tokenizer_start (initial_shell ""))
    = Some t'
    /\ arguments t' ["wc"; "-l1234"; "&"] []
    /\ t_input_file t' = "in$$"
    /\ t_output_file t' = "out".
Proof.
  assert (Hok : Forall item_ok
                  [Word "wc" ""; Word "-l$$" ""; InputFrom "in$$" "";
                   OutputTo "out" ""; Word "&" nl]).
  { repeat constructor; cbn; try lia; discriminate. }
  assert (Hargs : arguments (tokenizer_start (initial_shell "")) [] [])
    by (split; reflexivity).
  exact (tokenizer_stores_words_only 1234
           [Word "wc" ""; Word "-l$$" ""; InputFrom "in$$" "";
            OutputTo "out" ""; Word "&" nl]
           (tokenizer_start (initial_shell "")) [] [] Hok Hargs).
Defined.
